(** * segmed.train.train_unet: a shallow embedding

    [train_unet] is glue code over TensorFlow/Keras, numpy and matplotlib.
    The embedding keeps the function's own control flow and data flow
    (argument forwarding, the two [zip] generator expressions, the debugging
    loop, the order of the library calls) and takes the libraries as an
    environment: a record of total functions that say, for each library call
    the function makes, whether it raises and what it returns.

    Python objects that the function mutates or shares are kept in a store:
    the four directory iterators (each call of [next] advances the iterator
    it is applied to, whoever calls it) and the two generator objects built
    over them. Every library call is appended to a log with its arguments. *)

From Stdlib Require Import ZArith Floats.PrimFloat.
From stdpp Require Import base list strings.

Local Open Scope string_scope.

(** ** Python values that cross the library boundary *)

(** A module-level Python object, referred to by module and attribute name
    ([tf.float32], [tf.keras.losses.binary_crossentropy],
    [mts.jaccard_index], ...). *)
Record pyref := PyRef { py_module : string; py_name : string }.

(** [from segmed.metrics import metrics as mts] *)
Definition mts (name : string) : pyref := PyRef "segmed.metrics.metrics" name.
Definition tf (path name : string) : pyref := PyRef ("tensorflow" +:+ path) name.

(** What one [next] on a generator object gives: a pair, an exception, or
    [StopIteration]. *)
Inductive pulled (E A : Type) : Type :=
| PYield (image_batch mask_batch : A)
| PRaise (e : E)
| PStop.
Arguments PYield {E A} image_batch mask_batch.
Arguments PRaise {E A} e.
Arguments PStop {E A}.

(** The argument lists of the library calls, one record per call, with the
    libraries' keyword names. *)

(** The keyword arguments [data_gen_args] of [ImageDataGenerator]. *)
Module DataGen.
Record args := {
  rescale : float;
  validation_split : option float;
  dtype : pyref
}.
End DataGen.

(** Arguments of [flow_from_directory]. *)
Module Flow.
Record args := {
  directory : string;
  class_mode : option string;
  color_mode : string;
  batch_size : option Z;
  seed : option Z;
  subset : string
}.
End Flow.

(** Arguments of [tf.keras.callbacks.ModelCheckpoint]. *)
Module Checkpoint.
Record args := {
  filepath : option string;
  monitor : option string;
  verbose : Z;
  save_best_only : bool;
  mode : string
}.
End Checkpoint.

(** Arguments of [model.compile]. *)
Module Compile.
Record args {Optimizer : Type} := {
  loss : pyref;
  optimizer : Optimizer;
  metrics : list pyref
}.
Arguments args : clear implicits.
End Compile.

(** Arguments of [model.fit_generator]. A generator object is given as its
    consumer sees it: the result of its k-th [next], counted from the
    moment it is handed over. *)
Module Fit.
Record args {Exn Array : Type} := {
  generator : nat -> pulled Exn Array;
  steps_per_epoch : option Z;
  epochs : option Z;
  callbacks : list Checkpoint.args;
  verbose : Z;
  validation_data : nat -> pulled Exn Array;
  validation_steps : option Z
}.
Arguments args : clear implicits.
End Fit.

(** The numpy index expressions that occur in the function:
    [b[0]], [i[0, ...]] and [j[0, ..., 0]]. *)
Inductive Index := Idx_0 | Idx_0_ellipsis | Idx_0_ellipsis_0.

Inductive result (E A : Type) : Type :=
| Ok (a : A)
| Raise (e : E).
Arguments Ok {E A} a.
Arguments Raise {E A} e.

Section Embedding.

(** Exceptions, numpy arrays, the [segmed] network description, Keras
    models, optimizers and [History] objects are opaque to [train_unet]. *)
Context {Exn Array SegNet Model Optimizer History : Type}.

(** A generator object as its consumer sees it. *)
Definition stream : Type := nat -> pulled Exn Array.

(** The [segmodel] argument: an object with a settable [input_size]
    attribute and a [collect()] method. *)
Record SegModel := {
  seg_net : SegNet;
  input_size : option (list Z)
}.

(** ** The libraries, as an environment *)

Record Framework := {
  (** The [ImageDataGenerator] constructor: raises or constructs. *)
  fw_ImageDataGenerator : DataGen.args -> result Exn unit;
  (** [datagen.flow_from_directory(...)]: raises or constructs. *)
  fw_flow_from_directory : DataGen.args -> Flow.args -> result Exn unit;
  (** The k-th batch (from 0) that a directory iterator with this
      configuration produces over the directory contents of this run. The
      iterator is endless: every k has a batch or an exception. *)
  fw_directory_batch : DataGen.args -> Flow.args -> nat -> result Exn Array;
  (** numpy indexing and [.shape]. *)
  fw_getitem : Array -> Index -> result Exn Array;
  fw_shape : Array -> list Z;
  (** [import matplotlib.pyplot as plt] and the three calls on it. *)
  fw_import_pyplot : result Exn unit;
  fw_plt_figure : Z -> result Exn unit;
  fw_plt_imshow : Array -> result Exn unit;
  fw_plt_show : result Exn unit;
  (** [segmodel.collect()]. *)
  fw_collect : SegModel -> result Exn Model;
  (** [ModelCheckpoint(...)]: raises or constructs. *)
  fw_ModelCheckpoint : Checkpoint.args -> result Exn unit;
  (** [model.compile(...)]: raises or gives the compiled model. *)
  fw_compile : Model -> Compile.args Optimizer -> result Exn Model;
  (** [model.fit_generator(...)]: raises or gives the history. *)
  fw_fit_generator : Model -> Fit.args Exn Array -> result Exn History
}.

Context (fw : Framework).

(** ** Library calls and the log *)

Inductive Call :=
| Call_ImageDataGenerator (a : DataGen.args)
| Call_flow_from_directory (datagen : DataGen.args) (a : Flow.args)
| Call_next (iterator : nat)
| Call_getitem (a : Array) (idx : Index)
| Call_import_pyplot
| Call_plt_figure (n : Z)
| Call_plt_imshow (a : Array)
| Call_plt_show
| Call_collect (s : SegModel)
| Call_ModelCheckpoint (a : Checkpoint.args)
| Call_compile (m : Model) (a : Compile.args Optimizer)
| Call_fit_generator (m : Model) (a : Fit.args Exn Array).

(** A logged call and the exception it raised, if any. *)
Record Event := { ev_call : Call; ev_raised : option Exn }.

(** ** The store *)

(** A [DirectoryIterator]: its configuration and how many batches have been
    drawn from it so far. *)
Record DirectoryIterator := {
  it_datagen : DataGen.args;
  it_flow : Flow.args;
  total_batches_seen : nat
}.

(** The object [(pair for pair in zip(a, b))]: the two iterators it draws
    from, and whether it has finished. *)
Record Generator := {
  zip_fst : nat;
  zip_snd : nat;
  finished : bool
}.

Record World := {
  iterators : list DirectoryIterator;
  generators : list Generator;
  log : list Event
}.

Definition empty_world : World :=
  {| iterators := []; generators := []; log := [] |}.

(** ** Computations *)

Inductive Outcome (A : Type) : Type :=
| Returned (a : A)
| Raised (e : Exn)
| OutOfFuel
| Stuck.
Arguments Returned {A} a.
Arguments Raised {A} e.
Arguments OutOfFuel {A}.
Arguments Stuck {A}.

Definition M (A : Type) : Type := World -> Outcome A * World.

Definition ret {A} (a : A) : M A := fun w => (Returned a, w).

Definition bind {A B} (m : M A) (k : A -> M B) : M B :=
  fun w =>
    match m w with
    | (Returned a, w') => k a w'
    | (Raised e, w') => (Raised e, w')
    | (OutOfFuel, w') => (OutOfFuel, w')
    | (Stuck, w') => (Stuck, w')
    end.

Definition log_event (c : Call) (r : option Exn) (w : World) : World :=
  {| iterators := iterators w;
     generators := generators w;
     log := log w ++ [{| ev_call := c; ev_raised := r |}] |}.

(** A library call: logged, and its exception (if any) raised here. *)
Definition call {A} (c : Call) (r : result Exn A) : M A :=
  fun w =>
    match r with
    | Ok a => (Returned a, log_event c None w)
    | Raise e => (Raised e, log_event c (Some e) w)
    end.

Declare Scope py_scope.
Delimit Scope py_scope with py.
Notation "x <- m ;; k" := (bind m (fun x => k))
  (at level 100, m at next level, k at level 200, right associativity) : py_scope.
Notation "m ;; k" := (bind m (fun _ => k))
  (at level 100, k at level 200, right associativity) : py_scope.
Local Open Scope py_scope.

(** ** The operations [train_unet] uses *)

Definition ImageDataGenerator (args : DataGen.args) : M DataGen.args :=
  call (Call_ImageDataGenerator args) (fw_ImageDataGenerator fw args) ;;
  ret args.

(** A new [DirectoryIterator] in the store, no batch drawn yet. *)
Definition new_iterator (datagen : DataGen.args) (a : Flow.args) : M nat :=
  fun w =>
    (Returned (length (iterators w)),
     {| iterators := iterators w ++
          [{| it_datagen := datagen; it_flow := a; total_batches_seen := 0 |}];
        generators := generators w;
        log := log w |}).

Definition flow_from_directory (datagen : DataGen.args) (directory : string)
    (class_mode : option string) (color_mode : string)
    (batch_size seed : option Z) (subset : string) : M nat :=
  let a := {| Flow.directory := directory; Flow.class_mode := class_mode;
              Flow.color_mode := color_mode; Flow.batch_size := batch_size;
              Flow.seed := seed; Flow.subset := subset |} in
  call (Call_flow_from_directory datagen a) (fw_flow_from_directory fw datagen a) ;;
  new_iterator datagen a.

(** The iterator's batch counter moves on, whether or not loading the batch
    then raises. *)
Definition advance (it : DirectoryIterator) : DirectoryIterator :=
  {| it_datagen := it_datagen it; it_flow := it_flow it;
     total_batches_seen := S (total_batches_seen it) |}.

(** [next(iterator)] on a directory iterator: the batch at the iterator's
    current position, and the iterator advanced in the store. *)
Definition next (iterator : nat) : M Array :=
  fun w =>
    match iterators w !! iterator with
    | Some it =>
        call (Call_next iterator)
          (fw_directory_batch fw (it_datagen it) (it_flow it) (total_batches_seen it))
          {| iterators := <[iterator := advance it]> (iterators w);
             generators := generators w;
             log := log w |}
    | None => (Stuck, w)
    end.

(** [(pair for pair in zip(a, b))]: a new generator object; nothing is
    drawn from [a] or [b] until the generator is asked for a pair. *)
Definition zip_generator (a b : nat) : M nat :=
  fun w =>
    (Returned (length (generators w)),
     {| iterators := iterators w;
        generators := generators w ++
          [{| zip_fst := a; zip_snd := b; finished := false |}];
        log := log w |}).

Definition finish (g : nat) (w : World) : World :=
  {| iterators := iterators w;
     generators := alter (fun G => {| zip_fst := zip_fst G; zip_snd := zip_snd G;
                                      finished := true |}) g (generators w);
     log := log w |}.

(** One [next] on a generator object: [zip] draws from its first iterator,
    then from its second, and the pair is yielded as it is. An exception
    from either iterator leaves the generator finished. *)
Definition pull (g : nat) (w : World) : option (pulled Exn Array) * World :=
  match generators w !! g with
  | Some G =>
      if finished G then (Some PStop, w)
      else
        match next (zip_fst G) w with
        | (Returned i, w1) =>
            match next (zip_snd G) w1 with
            | (Returned j, w2) => (Some (PYield i j), w2)
            | (Raised e, w2) => (Some (PRaise e), finish g w2)
            | (_, w2) => (None, w2)
            end
        | (Raised e, w1) => (Some (PRaise e), finish g w1)
        | (_, w1) => (None, w1)
        end
  | None => (None, w)
  end.

(** What a consumer that is handed generator [g] in world [w] gets from its
    k-th [next] on it (the consumer's own calls are not logged). *)
Fixpoint stream_of (w : World) (g : nat) (k : nat) : pulled Exn Array :=
  match pull g w with
  | (Some r, w') =>
      match k with
      | 0 => r
      | S k' => stream_of w' g k'
      end
  | (None, _) => PStop
  end.

(** [for i, j in g: body]. One unit of fuel per iteration. *)
Fixpoint for_each (fuel : nat) (g : nat) (body : Array -> Array -> M unit) : M unit :=
  fun w =>
    match fuel with
    | 0 => (OutOfFuel, w)
    | S fuel' =>
        match pull g w with
        | (Some (PYield i j), w1) =>
            match body i j w1 with
            | (Returned _, w2) => for_each fuel' g body w2
            | (o, w2) => (o, w2)
            end
        | (Some (PRaise e), w1) => (Raised e, w1)
        | (Some PStop, w1) => (Returned tt, w1)
        | (None, w1) => (Stuck, w1)
        end
    end.

Definition getitem (a : Array) (idx : Index) : M Array :=
  call (Call_getitem a idx) (fw_getitem fw a idx).

Definition import_pyplot : M unit :=
  call Call_import_pyplot (fw_import_pyplot fw).
Definition plt_figure (n : Z) : M unit :=
  call (Call_plt_figure n) (fw_plt_figure fw n).
Definition plt_imshow (a : Array) : M unit :=
  call (Call_plt_imshow a) (fw_plt_imshow fw a).
Definition plt_show : M unit :=
  call Call_plt_show (fw_plt_show fw).

(** [segmodel.input_size = shape] *)
Definition set_input_size (segmodel : SegModel) (shape : list Z) : SegModel :=
  {| seg_net := seg_net segmodel; input_size := Some shape |}.

Definition collect (segmodel : SegModel) : M Model :=
  call (Call_collect segmodel) (fw_collect fw segmodel).

Definition ModelCheckpoint (filepath monitor : option string) (verbose : Z)
    (save_best_only : bool) (mode : string) : M Checkpoint.args :=
  let a := {| Checkpoint.filepath := filepath; Checkpoint.monitor := monitor;
              Checkpoint.verbose := verbose;
              Checkpoint.save_best_only := save_best_only;
              Checkpoint.mode := mode |} in
  call (Call_ModelCheckpoint a) (fw_ModelCheckpoint fw a) ;;
  ret a.

Definition compile (model : Model) (loss : pyref) (optimizer : Optimizer)
    (metrics : list pyref) : M Model :=
  let a := {| Compile.loss := loss; Compile.optimizer := optimizer;
              Compile.metrics := metrics |} in
  call (Call_compile model a) (fw_compile fw model a).

(** [model.fit_generator(...)]: the library receives the two generator
    objects as they stand in the store at this point. Each is given as the
    stream of pairs it then yields; the two generators of [train_unet] draw
    from different iterators, so neither stream depends on how far the
    other has been drawn ([stream_of_after_other_pull] below). What the
    library draws is not logged. *)
Definition fit_generator (model : Model) (generator : nat)
    (steps_per_epoch epochs : option Z) (callbacks : list Checkpoint.args)
    (verbose : Z) (validation_data : nat) (validation_steps : option Z) : M History :=
  fun w =>
    let a := {| Fit.generator := stream_of w generator;
                Fit.steps_per_epoch := steps_per_epoch;
                Fit.epochs := epochs;
                Fit.callbacks := callbacks;
                Fit.verbose := verbose;
                Fit.validation_data := stream_of w validation_data;
                Fit.validation_steps := validation_steps |} in
    call (Call_fit_generator model a) (fw_fit_generator fw model a) w.

(** ** The element-wise zip, in the specification's words

    A directory iterator produces a sequence of batches (or an exception in
    place of one). The element-wise zip of two such sequences has, as its
    k-th element, the pair of their k-th elements; the first exception ends
    it. *)
Fixpoint zip_of (xs ys : nat -> result Exn Array) (k : nat) : pulled Exn Array :=
  match xs 0 with
  | Raise e => match k with 0 => PRaise e | S _ => PStop end
  | Ok i =>
      match ys 0 with
      | Raise e => match k with 0 => PRaise e | S _ => PStop end
      | Ok j =>
          match k with
          | 0 => PYield i j
          | S k' => zip_of (fun n => xs (S n)) (fun n => ys (S n)) k'
          end
      end
  end.

(** What a directory iterator with a given configuration produces, from its
    [n]-th batch on. *)
Definition produced_from (n : nat) (datagen : DataGen.args) (a : Flow.args)
  : nat -> result Exn Array :=
  fun k => fw_directory_batch fw datagen a (n + k).

(** ** [train_unet]

    The arguments are those of the Python signature: [Optional[int]],
    [Optional[float]] and [Optional[str]] arguments are options, [show] is
    the truth value that [if show:] tests, and [fuel] bounds the number of
    iterations of the debugging loop (it is not used anywhere else). *)

Definition train_unet
    (segmodel : SegModel)
    (img_path : string)
    (mask_path : string)
    (batch_size : option Z)
    (epochs : option Z)
    (steps_per_epoch : option Z)
    (val_split : option float)
    (optimizer : Optimizer)
    (monitor : option string)
    (model_file : option string)
    (seed : option Z)
    (show : bool)
    (fuel : nat) : M History :=
  (* Rescale and convert to float32 both subsets *)
  let data_gen_args :=
    {| DataGen.rescale := (1 / 255)%float;
       DataGen.validation_split := val_split;
       DataGen.dtype := tf "" "float32" |} in
  image_datagen <- ImageDataGenerator data_gen_args ;;
  mask_datagen <- ImageDataGenerator data_gen_args ;;
  (* Take images from directories *)
  image_generator_train <-
    flow_from_directory image_datagen img_path None "rgb" batch_size seed "training" ;;
  mask_generator_train <-
    flow_from_directory mask_datagen mask_path None "grayscale" batch_size seed "training" ;;
  (* Combine both generators *)
  train_generator <- zip_generator image_generator_train mask_generator_train ;;
  (* And now the validation generators *)
  image_generator_val <-
    flow_from_directory image_datagen img_path None "rgb" batch_size seed "validation" ;;
  mask_generator_val <-
    flow_from_directory mask_datagen mask_path None "grayscale" batch_size seed "validation" ;;
  val_generator <- zip_generator image_generator_val mask_generator_val ;;
  (* DEBUGGING ONLY *)
  (if show then
     import_pyplot ;;
     for_each fuel train_generator (fun i j =>
       plt_figure 0 ;;
       i0 <- getitem i Idx_0_ellipsis ;;
       plt_imshow i0 ;;
       plt_figure 1 ;;
       j0 <- getitem j Idx_0_ellipsis_0 ;;
       plt_imshow j0 ;;
       plt_show)
   else ret tt) ;;
  (* Define the input size in the model and build the model *)
  b <- next image_generator_train ;;
  b0 <- getitem b Idx_0 ;;
  let segmodel := set_input_size segmodel (fw_shape fw b0) in
  model <- collect segmodel ;;
  (* Define the checkpoint callback, always maximum mode for custom metrics *)
  checkpoint <- ModelCheckpoint model_file monitor 1 true "max" ;;
  (* Compile the model with custom metrics *)
  model <- compile model (tf ".keras.losses" "binary_crossentropy") optimizer
             [mts "jaccard_index"; mts "dice_coef"] ;;
  (* Create history of model and return it *)
  history <- fit_generator model train_generator steps_per_epoch epochs
               [checkpoint] 1 val_generator steps_per_epoch ;;
  ret history.

(** ** Vocabulary for statements about runs *)

(** The library calls of a run, in order. *)
Definition calls (w : World) : list Call := map ev_call (log w).

(** The calls made from inside the debugging loop. *)
Definition loop_call (c : Call) : Prop :=
  match c with
  | Call_next _ | Call_getitem _ _ | Call_plt_figure _ | Call_plt_imshow _
  | Call_plt_show => True
  | _ => False
  end.

(** The calls that build, compile and train the model. *)
Definition training_call (c : Call) : Prop :=
  match c with
  | Call_collect _ | Call_ModelCheckpoint _ | Call_compile _ _
  | Call_fit_generator _ _ => True
  | _ => False
  end.

(** Every completed iteration of the debugging loop ends with one
    [plt.show()]: the number of such calls counts the completed iterations. *)
Definition is_plt_show (c : Call) : bool :=
  match c with Call_plt_show => true | _ => false end.

Definition shown (evs : list Event) : nat :=
  length (List.filter
            (fun ev => is_plt_show (ev_call ev) && bool_decide (ev_raised ev = None))
            evs).

(** No logged call raised. *)
Definition clean (evs : list Event) : Prop :=
  Forall (fun ev => ev_raised ev = None) evs.

(** The outcome of a computation against the calls it logged: an exception
    that comes out is the one the last call raised, and no call before it
    raised; otherwise no call raised at all. *)
Definition propagates {A} (o : Outcome A) (evs : list Event) : Prop :=
  match o with
  | Raised e =>
      (exists c, last evs = Some {| ev_call := c; ev_raised := Some e |}) /\
      clean (removelast evs)
  | Stuck => False
  | _ => clean evs
  end.

(** No call that the debugging path makes raises. *)
Definition show_never_raises : Prop :=
  (forall a, fw_ImageDataGenerator fw a = Ok tt) /\
  (forall datagen a, fw_flow_from_directory fw datagen a = Ok tt) /\
  (forall datagen a k, exists b, fw_directory_batch fw datagen a k = Ok b) /\
  (forall a idx, exists x, fw_getitem fw a idx = Ok x) /\
  fw_import_pyplot fw = Ok tt /\
  (forall n, fw_plt_figure fw n = Ok tt) /\
  (forall a, fw_plt_imshow fw a = Ok tt) /\
  fw_plt_show fw = Ok tt.

(** The body of the debugging loop of [train_unet], by name. *)
Definition show_pair (i j : Array) : M unit :=
  plt_figure 0 ;;
  i0 <- getitem i Idx_0_ellipsis ;;
  plt_imshow i0 ;;
  plt_figure 1 ;;
  j0 <- getitem j Idx_0_ellipsis_0 ;;
  plt_imshow j0 ;;
  plt_show.

(** ** What one call of [train_unet] is expected to hand to the libraries *)

Section Expected.

Variables (img_path mask_path : string) (batch_size epochs steps_per_epoch : option Z)
  (val_split : option float) (optimizer : Optimizer)
  (monitor model_file : option string) (seed : option Z).

Definition expected_datagen : DataGen.args :=
  {| DataGen.rescale := (1 / 255)%float;
     DataGen.validation_split := val_split;
     DataGen.dtype := tf "" "float32" |}.

Definition expected_flow (directory color_mode subset : string) : Flow.args :=
  {| Flow.directory := directory; Flow.class_mode := None;
     Flow.color_mode := color_mode; Flow.batch_size := batch_size;
     Flow.seed := seed; Flow.subset := subset |}.

Definition expected_checkpoint : Checkpoint.args :=
  {| Checkpoint.filepath := model_file; Checkpoint.monitor := monitor;
     Checkpoint.verbose := 1; Checkpoint.save_best_only := true;
     Checkpoint.mode := "max" |}.

Definition expected_compile : Compile.args Optimizer :=
  {| Compile.loss := tf ".keras.losses" "binary_crossentropy";
     Compile.optimizer := optimizer;
     Compile.metrics := [mts "jaccard_index"; mts "dice_coef"] |}.

(** The stream a generator over the image and mask iterators of [subset]
    yields when [n] image batches have been drawn before it is used. *)
Definition expected_stream (n : nat) (subset : string) : stream :=
  zip_of (produced_from n expected_datagen (expected_flow img_path "rgb" subset))
         (produced_from 0 expected_datagen (expected_flow mask_path "grayscale" subset)).

(** Every logged call carries the arguments of the call of [train_unet]
    as they were given. *)
Definition conforms (c : Call) : Prop :=
  match c with
  | Call_ImageDataGenerator a => a = expected_datagen
  | Call_flow_from_directory datagen a =>
      datagen = expected_datagen /\
      (a = expected_flow img_path "rgb" "training" \/
       a = expected_flow mask_path "grayscale" "training" \/
       a = expected_flow img_path "rgb" "validation" \/
       a = expected_flow mask_path "grayscale" "validation")
  | Call_ModelCheckpoint a => a = expected_checkpoint
  | Call_compile _ a => a = expected_compile
  | Call_fit_generator _ a =>
      Fit.steps_per_epoch a = steps_per_epoch /\
      Fit.epochs a = epochs /\
      Fit.callbacks a = [expected_checkpoint] /\
      Fit.verbose a = 1%Z /\
      Fit.validation_steps a = steps_per_epoch /\
      (forall k, Fit.generator a k = expected_stream 1 "training" k) /\
      (forall k, Fit.validation_data a k = expected_stream 0 "validation" k)
  | _ => True
  end.

(** The six calls that construct the data pipeline, in order. *)
Definition expected_setup : list Call :=
  [Call_ImageDataGenerator expected_datagen;
   Call_ImageDataGenerator expected_datagen;
   Call_flow_from_directory expected_datagen (expected_flow img_path "rgb" "training");
   Call_flow_from_directory expected_datagen (expected_flow mask_path "grayscale" "training");
   Call_flow_from_directory expected_datagen (expected_flow img_path "rgb" "validation");
   Call_flow_from_directory expected_datagen (expected_flow mask_path "grayscale" "validation")].

(** Where [fit_generator] is reached, the run began with the six pipeline
    calls, [fit_generator] is the last call, the call just before it is the
    compile call that made its model, the checkpoint has been constructed,
    and the outcome of the run is the outcome of [fit_generator]. *)
Definition fit_reached_as_expected (o : Outcome History) (w : World) : Prop :=
  forall m a, In (Call_fit_generator m a) (calls w) ->
    firstn 6 (calls w) = expected_setup /\
    last (calls w) = Some (Call_fit_generator m a) /\
    (exists m0,
       last (removelast (calls w)) = Some (Call_compile m0 expected_compile) /\
       fw_compile fw m0 expected_compile = Ok m) /\
    In (Call_ModelCheckpoint expected_checkpoint) (removelast (calls w)) /\
    o = match fw_fit_generator fw m a with
        | Ok h => Returned h
        | Raise e => Raised e
        end.

(** A run that returns returns what its last call, [fit_generator], gave. *)
Definition returned_from_fit (o : Outcome History) (w : World) : Prop :=
  forall h, o = Returned h ->
    exists m a, last (calls w) = Some (Call_fit_generator m a) /\
                fw_fit_generator fw m a = Ok h.

End Expected.

End Embedding.

Arguments Returned {Exn A} a.
Arguments Raised {Exn A} e.
Arguments OutOfFuel {Exn A}.
Arguments Stuck {Exn A}.

(** ** A small concrete environment

    Arrays are named by where they come from, so that a batch can be traced
    through the function; exceptions are their Python names. *)

Inductive demo_array :=
| Batch (directory subset : string) (k : nat)
| Item (a : demo_array) (idx : Index).

Record demo_model := { built_for : option (list Z); compiled : bool }.

(** What the demo training API reports back: the first two pairs it drew
    from the training stream and from the validation stream. *)
Record demo_history := {
  seen_train : list (pulled string demo_array);
  seen_val : list (pulled string demo_array)
}.

(** Every call succeeds, except [flow_from_directory] on the directory
    named [missing], if there is one. *)
Definition demo_fw (missing : option string)
  : @Framework string demo_array unit demo_model string demo_history :=
  {| fw_ImageDataGenerator := fun _ => Ok tt;
     fw_flow_from_directory := fun _ a =>
       match missing with
       | Some d =>
           if String.eqb (Flow.directory a) d then Raise "FileNotFoundError" else Ok tt
       | None => Ok tt
       end;
     fw_directory_batch := fun _ a k => Ok (Batch (Flow.directory a) (Flow.subset a) k);
     fw_getitem := fun a idx => Ok (Item a idx);
     fw_shape := fun _ => [256; 256; 3]%Z;
     fw_import_pyplot := Ok tt;
     fw_plt_figure := fun _ => Ok tt;
     fw_plt_imshow := fun _ => Ok tt;
     fw_plt_show := Ok tt;
     fw_collect := fun s => Ok {| built_for := input_size s; compiled := false |};
     fw_ModelCheckpoint := fun _ => Ok tt;
     fw_compile := fun m _ => Ok {| built_for := built_for m; compiled := true |};
     fw_fit_generator := fun _ a =>
       Ok {| seen_train := [Fit.generator a 0; Fit.generator a 1];
             seen_val := [Fit.validation_data a 0; Fit.validation_data a 1] |} |}.

Definition demo_segmodel : @SegModel unit :=
  {| seg_net := tt; input_size := None |}.

(** [train_unet(segmodel, "images", "masks")] with the defaults of the
    signature ([val_split] is the binary64 value of 0.2), and with [show] as
    given. *)
Definition demo_call (missing : option string) (show : bool) (fuel : nat) :=
  train_unet (demo_fw missing) demo_segmodel "images" "masks"
    (Some 16%Z) (Some 25%Z) (Some 3125%Z) (Some 0x1.999999999999ap-3%float) "Adam"
    (Some "val_jaccard_index") (Some "unet.h5") (Some 1%Z) show fuel empty_world.

(** ** The order of the library calls

    A call without its payload. The iterators are named by their place in
    the store: 0 and 1 are [image_generator_train] and
    [mask_generator_train], 2 and 3 the two validation iterators. *)
Inductive Kind :=
| K_ImageDataGenerator
| K_flow_from_directory (color_mode subset : string)
| K_next (iterator : nat)
| K_getitem (idx : Index)
| K_import_pyplot
| K_plt_figure (n : Z)
| K_plt_imshow
| K_plt_show
| K_collect
| K_ModelCheckpoint
| K_compile
| K_fit_generator.

(** The six calls that build the data pipeline. *)
Definition pipeline_script : list Kind :=
  [K_ImageDataGenerator; K_ImageDataGenerator;
   K_flow_from_directory "rgb" "training";
   K_flow_from_directory "grayscale" "training";
   K_flow_from_directory "rgb" "validation";
   K_flow_from_directory "grayscale" "validation"].

(** The calls of a call of [train_unet] with [show] false that nothing
    interrupts. *)
Definition training_script : list Kind :=
  (pipeline_script ++
   [K_next 0; K_getitem Idx_0; K_collect; K_ModelCheckpoint; K_compile;
    K_fit_generator])%list.

(** The calls of the body of the debugging loop, and of one iteration: a
    batch from each training iterator, then the body. *)
Definition show_pair_script : list Kind :=
  [K_plt_figure 0; K_getitem Idx_0_ellipsis; K_plt_imshow;
   K_plt_figure 1; K_getitem Idx_0_ellipsis_0; K_plt_imshow;
   K_plt_show].

Definition show_iteration : list Kind :=
  ([K_next 0; K_next 1] ++ show_pair_script)%list.

(** The calls of a call of [train_unet] with [show] true, up to the end of
    its [n]-th iteration. *)
Definition show_script (n : nat) : list Kind :=
  (pipeline_script ++ [K_import_pyplot] ++ concat (replicate n show_iteration))%list.

Section Order.

Context {Exn Array SegNet Model Optimizer : Type}.

Definition kind_of (c : @Call Exn Array SegNet Model Optimizer) : Kind :=
  match c with
  | Call_ImageDataGenerator _ => K_ImageDataGenerator
  | Call_flow_from_directory _ a =>
      K_flow_from_directory (Flow.color_mode a) (Flow.subset a)
  | Call_next it => K_next it
  | Call_getitem _ idx => K_getitem idx
  | Call_import_pyplot => K_import_pyplot
  | Call_plt_figure n => K_plt_figure n
  | Call_plt_imshow _ => K_plt_imshow
  | Call_plt_show => K_plt_show
  | Call_collect _ => K_collect
  | Call_ModelCheckpoint _ => K_ModelCheckpoint
  | Call_compile _ _ => K_compile
  | Call_fit_generator _ _ => K_fit_generator
  end.

Definition kinds (w : @World Exn Array SegNet Model Optimizer) : list Kind :=
  map kind_of (calls w).

(** The arrays handed to [plt.imshow], in order. *)
Definition imshow_arg (c : @Call Exn Array SegNet Model Optimizer) : option Array :=
  match c with
  | Call_plt_imshow a => Some a
  | _ => None
  end.

Definition displayed (evs : list (@Event Exn Array SegNet Model Optimizer)) : list Array :=
  omap (fun ev => imshow_arg (ev_call ev)) evs.

(** No library call raises. *)
Definition never_raises {History : Type}
    (fw : @Framework Exn Array SegNet Model Optimizer History) : Prop :=
  show_never_raises fw /\
  (forall s, exists m, fw_collect fw s = Ok m) /\
  (forall a, fw_ModelCheckpoint fw a = Ok tt) /\
  (forall m a, exists m', fw_compile fw m a = Ok m') /\
  (forall m a, exists h, fw_fit_generator fw m a = Ok h).

(** The store after a consumer has asked generator [g] for a pair [n]
    times. *)
Fixpoint drawn {History : Type}
    (fw : @Framework Exn Array SegNet Model Optimizer History)
    (g : nat) (n : nat) (w : @World Exn Array SegNet Model Optimizer)
  : @World Exn Array SegNet Model Optimizer :=
  match n with
  | 0 => w
  | S n' => drawn fw g n' (snd (pull fw g w))
  end.

End Order.

(** An environment in which the mask batch number [bad] of every mask
    iterator cannot be loaded; every other call succeeds. *)
Definition demo_fw_corrupt (bad : nat)
  : @Framework string demo_array unit demo_model string demo_history :=
  {| fw_ImageDataGenerator := fw_ImageDataGenerator (demo_fw None);
     fw_flow_from_directory := fw_flow_from_directory (demo_fw None);
     fw_directory_batch := fun _ a k =>
       if String.eqb (Flow.directory a) "masks" && Nat.eqb k bad
       then Raise "UnidentifiedImageError"
       else Ok (Batch (Flow.directory a) (Flow.subset a) k);
     fw_getitem := fw_getitem (demo_fw None);
     fw_shape := fw_shape (demo_fw None);
     fw_import_pyplot := fw_import_pyplot (demo_fw None);
     fw_plt_figure := fw_plt_figure (demo_fw None);
     fw_plt_imshow := fw_plt_imshow (demo_fw None);
     fw_plt_show := fw_plt_show (demo_fw None);
     fw_collect := fw_collect (demo_fw None);
     fw_ModelCheckpoint := fw_ModelCheckpoint (demo_fw None);
     fw_compile := fw_compile (demo_fw None);
     fw_fit_generator := fw_fit_generator (demo_fw None) |}.

(** * Properties *)

Section Properties.

Local Open Scope list_scope.

Context {Exn Array SegNet Model Optimizer History : Type}.
Context (fw : @Framework Exn Array SegNet Model Optimizer History).

Local Abbreviation world := (@World Exn Array SegNet Model Optimizer).
Local Abbreviation event := (@Event Exn Array SegNet Model Optimizer).
Local Abbreviation pycall := (@Call Exn Array SegNet Model Optimizer).

(** ** The store under library calls *)

Lemma call_eq {A} (c : pycall) (r : result Exn A) (w : world) :
  call c r w =
  (match r with Ok a => Returned a | Raise e => Raised e end,
   log_event c (match r with Ok _ => None | Raise e => Some e end) w).
Proof. unfold call. destruct r; reflexivity. Qed.

Lemma next_eq (it : nat) (i : DirectoryIterator) (w : world) :
  iterators w !! it = Some i ->
  next fw it w =
  call (Call_next it)
    (fw_directory_batch fw (it_datagen i) (it_flow i) (total_batches_seen i))
    {| iterators := <[it := advance i]> (iterators w);
       generators := generators w;
       log := log w |}.
Proof. intros H. unfold next. rewrite H. reflexivity. Qed.

Lemma pull_finished (g : nat) (G : Generator) (w : world) :
  generators w !! g = Some G -> finished G = true ->
  pull fw g w = (Some PStop, w).
Proof. intros H1 H2. unfold pull. rewrite H1, H2. reflexivity. Qed.

Lemma stream_of_finished (g : nat) (G : Generator) (w : world) (k : nat) :
  generators w !! g = Some G -> finished G = true ->
  stream_of fw w g k = PStop.
Proof.
  intros H1 H2. induction k as [|k IH]; simpl; rewrite (pull_finished g G w H1 H2).
  - reflexivity.
  - exact IH.
Qed.

Lemma zip_of_ext (xs xs' ys ys' : nat -> result Exn Array) (k : nat) :
  (forall n, xs n = xs' n) -> (forall n, ys n = ys' n) ->
  zip_of xs ys k = zip_of xs' ys' k.
Proof.
  revert xs xs' ys ys'. induction k as [|k IH]; intros xs xs' ys ys' Hx Hy; simpl;
    rewrite <- (Hx 0), <- (Hy 0); destruct (xs 0), (ys 0); try reflexivity.
  apply IH; intros n; [apply Hx | apply Hy].
Qed.

Lemma zip_of_yield (xs ys : nat -> result Exn Array) (f h : nat -> Array) (k : nat) :
  (forall n, xs n = Ok (f n)) -> (forall n, ys n = Ok (h n)) ->
  zip_of xs ys k = PYield (f k) (h k).
Proof.
  revert xs ys f h. induction k as [|k IH]; intros xs ys f h Hx Hy; simpl;
    rewrite (Hx 0), (Hy 0); [reflexivity|].
  apply (IH _ _ (fun n => f (S n)) (fun n => h (S n))); intros n; [apply Hx | apply Hy].
Qed.

Lemma finish_lookup (g : nat) (G : Generator) (w : world) :
  generators w !! g = Some G ->
  generators (finish g w) !! g =
  Some {| zip_fst := zip_fst G; zip_snd := zip_snd G; finished := true |}.
Proof.
  intros H. unfold finish. simpl. rewrite list_lookup_alter_eq, H. reflexivity.
Qed.

(** A live generator over two distinct iterators yields the element-wise
    zip of what the two iterators produce from their current positions. *)
Lemma stream_of_zip (g a b : nat) (k : nat) :
  a <> b ->
  forall (w : world) (ia ib : DirectoryIterator),
  generators w !! g = Some {| zip_fst := a; zip_snd := b; finished := false |} ->
  iterators w !! a = Some ia ->
  iterators w !! b = Some ib ->
  stream_of fw w g k =
  zip_of (produced_from fw (total_batches_seen ia) (it_datagen ia) (it_flow ia))
         (produced_from fw (total_batches_seen ib) (it_datagen ib) (it_flow ib)) k.
Proof.
  intros Hab. induction k as [|k IH]; intros w ia ib Hg Ha Hb.
  all: assert (Hlt : a < length (iterators w)) by (eapply lookup_lt_Some; eassumption).
  all: cbn [stream_of zip_of]; unfold pull; rewrite Hg; cbn [finished zip_fst zip_snd].
  all: rewrite (next_eq a ia w Ha), call_eq; unfold produced_from at 1.
  all: rewrite Nat.add_0_r.
  all: destruct (fw_directory_batch fw (it_datagen ia) (it_flow ia) (total_batches_seen ia))
         as [i|e] eqn:Ei.
  all: try (erewrite next_eq
              by (cbn [iterators log_event]; rewrite list_lookup_insert_ne by exact Hab;
                  exact Hb);
            rewrite call_eq; unfold produced_from at 1; rewrite Nat.add_0_r;
            destruct (fw_directory_batch fw (it_datagen ib) (it_flow ib)
                        (total_batches_seen ib)) as [j|e] eqn:Ej).
  all: try reflexivity.
  - (* both batches drawn: the rest of the stream *)
    erewrite (IH _ (advance ia) (advance ib)).
    + apply zip_of_ext; intros n; unfold produced_from; cbn [advance total_batches_seen
        it_datagen it_flow]; f_equal; lia.
    + exact Hg.
    + cbn [iterators log_event]. rewrite list_lookup_insert_ne by (intros E; apply Hab; auto).
      apply list_lookup_insert_eq. exact Hlt.
    + cbn [iterators log_event]. apply list_lookup_insert_eq.
      rewrite length_insert. eapply lookup_lt_Some; eassumption.
  - (* the second iterator raised: the generator is finished *)
    eapply stream_of_finished; [apply finish_lookup; exact Hg | reflexivity].
  - (* the first iterator raised: the generator is finished *)
    eapply stream_of_finished; [apply finish_lookup; exact Hg | reflexivity].
Qed.

(** ** Outcomes against the log *)

Lemma clean_app (l1 l2 : list event) : clean l1 -> clean l2 -> clean (l1 ++ l2).
Proof. unfold clean. intros H1 H2. apply Forall_app; split; assumption. Qed.

Lemma clean_removelast (l : list event) : clean l -> clean (removelast l).
Proof.
  unfold clean. induction l as [|x [|y l] IH]; intros H; simpl.
  - constructor.
  - constructor.
  - inversion H; subst. constructor; [assumption | apply IH; assumption].
Qed.

Lemma clean_last (l : list event) (ev : event) :
  clean l -> last l = Some ev -> ev_raised ev = None.
Proof.
  unfold clean. intros Hc Hl. rewrite List.Forall_forall in Hc.
  apply Hc. apply list_elem_of_In. apply last_Some_elem_of. exact Hl.
Qed.

Lemma propagates_app {A} (o : Outcome A) (l1 l2 : list event) :
  clean l1 -> propagates o l2 -> propagates o (l1 ++ l2).
Proof.
  intros H1 H2. destruct o as [a|e| |]; simpl in *.
  - apply clean_app; assumption.
  - destruct H2 as [[c Hc] Hl]. destruct l2 as [|x l2]; [discriminate Hc|].
    split.
    + exists c. rewrite last_app, Hc. reflexivity.
    + rewrite removelast_app by discriminate. apply clean_app; assumption.
  - apply clean_app; assumption.
  - exact H2.
Qed.

(** ** One [next] on a live generator *)

Lemma pull_live (g a b : nat) (w : world) (ia ib : DirectoryIterator) :
  a <> b ->
  generators w !! g = Some {| zip_fst := a; zip_snd := b; finished := false |} ->
  iterators w !! a = Some ia ->
  iterators w !! b = Some ib ->
  pull fw g w =
  let wa := {| iterators := <[a := advance ia]> (iterators w);
               generators := generators w; log := log w |} in
  match fw_directory_batch fw (it_datagen ia) (it_flow ia) (total_batches_seen ia) with
  | Raise e => (Some (PRaise e), finish g (log_event (Call_next a) (Some e) wa))
  | Ok i =>
      let wb := {| iterators := <[b := advance ib]> (<[a := advance ia]> (iterators w));
                   generators := generators w;
                   log := log w ++ [{| ev_call := Call_next a; ev_raised := None |}] |} in
      match fw_directory_batch fw (it_datagen ib) (it_flow ib) (total_batches_seen ib) with
      | Raise e => (Some (PRaise e), finish g (log_event (Call_next b) (Some e) wb))
      | Ok j => (Some (PYield i j), log_event (Call_next b) None wb)
      end
  end.
Proof.
  intros Hab Hg Ha Hb. unfold pull. rewrite Hg. cbn [finished zip_fst zip_snd].
  rewrite (next_eq a ia w Ha), call_eq.
  destruct (fw_directory_batch fw (it_datagen ia) (it_flow ia) (total_batches_seen ia))
    as [i|e]; [|reflexivity].
  erewrite next_eq
    by (cbn [iterators log_event]; rewrite list_lookup_insert_ne by exact Hab; exact Hb).
  rewrite call_eq.
  destruct (fw_directory_batch fw (it_datagen ib) (it_flow ib) (total_batches_seen ib));
    reflexivity.
Qed.

(** What one generator yields does not depend on how far a generator over
    other iterators has been drawn: the two streams handed to the training
    API can be read independently of the order in which it draws from them. *)
Lemma stream_of_after_other_pull (g g' a b c d : nat) (k : nat) (w : world)
    (ia ib ic id : DirectoryIterator) :
  g <> g' -> a <> b -> c <> d -> a <> c -> a <> d -> b <> c -> b <> d ->
  generators w !! g = Some {| zip_fst := a; zip_snd := b; finished := false |} ->
  generators w !! g' = Some {| zip_fst := c; zip_snd := d; finished := false |} ->
  iterators w !! a = Some ia ->
  iterators w !! b = Some ib ->
  iterators w !! c = Some ic ->
  iterators w !! d = Some id ->
  stream_of fw (snd (pull fw g' w)) g k = stream_of fw w g k.
Proof.
  intros Hgg Hab Hcd Hac Had Hbc Hbd Hg Hg' Ha Hb Hc Hd.
  rewrite (stream_of_zip g a b k Hab w ia ib Hg Ha Hb).
  rewrite (pull_live g' c d w ic id Hcd Hg' Hc Hd). cbn zeta.
  destruct (fw_directory_batch fw (it_datagen ic) (it_flow ic) (total_batches_seen ic));
    [destruct (fw_directory_batch fw (it_datagen id) (it_flow id) (total_batches_seen id))|].
  all: cbn [snd]; apply (stream_of_zip g a b k Hab);
    cbn [finish log_event generators iterators];
    rewrite ?list_lookup_alter_ne, ?list_lookup_insert_ne by congruence;
    assumption.
Qed.

(** ** The debugging loop *)

(** Case analysis on the next library result that decides the control flow. *)
Ltac library_case :=
  match goal with
  | |- context [match ?r with Ok _ => _ | Raise _ => _ end] =>
      let E := fresh "E" in destruct r eqn:E
  end.

Ltac run_calls := repeat (cbn -[stream_of]; try library_case).

(** A property of every element of an explicit list. *)
Ltac each_event :=
  repeat (first [apply List.Forall_nil | apply List.Forall_cons]; cbn; auto).

Lemma show_pair_spec (i j : Array) (w : world) :
  iterators (snd (show_pair fw i j w)) = iterators w /\
  generators (snd (show_pair fw i j w)) = generators w /\
  exists evs,
    log (snd (show_pair fw i j w)) = log w ++ evs /\
    Forall (fun ev => loop_call (ev_call ev)) evs /\
    propagates (fst (show_pair fw i j w)) evs /\
    fst (show_pair fw i j w) <> OutOfFuel /\
    (forall u, fst (show_pair fw i j w) = Returned u -> shown evs = 1).
Proof.
  unfold show_pair, plt_figure, plt_imshow, plt_show, getitem, bind, call.
  run_calls.
  all: split; [reflexivity|]; split; [reflexivity|].
  all: eexists; split; [rewrite <- ?app_assoc; reflexivity|].
  all: cbn; unfold clean; repeat split; try discriminate; eauto; each_event.
Qed.

Lemma shown_app (l1 l2 : list event) : shown (l1 ++ l2) = shown l1 + shown l2.
Proof. unfold shown. rewrite List.filter_app, length_app. reflexivity. Qed.

(** The loop over a live generator on two distinct directory iterators
    never ends normally: it runs out of fuel or an exception comes out. *)
Lemma for_each_spec (g a b : nat) (fuel : nat) :
  a <> b ->
  forall (w : world) (ia ib : DirectoryIterator),
  generators w !! g = Some {| zip_fst := a; zip_snd := b; finished := false |} ->
  iterators w !! a = Some ia ->
  iterators w !! b = Some ib ->
  exists evs,
    log (snd (for_each fw fuel g (show_pair fw) w)) = log w ++ evs /\
    Forall (fun ev => loop_call (ev_call ev)) evs /\
    propagates (fst (for_each fw fuel g (show_pair fw) w)) evs /\
    (forall u, fst (for_each fw fuel g (show_pair fw) w) <> Returned u) /\
    (fst (for_each fw fuel g (show_pair fw) w) = OutOfFuel ->
     shown evs = fuel).
Proof.
  intros Hab. induction fuel as [|fuel IH]; intros w ia ib Hg Ha Hb.
  { exists []. cbn. rewrite app_nil_r. repeat split; try discriminate; constructor. }
  assert (Hlt : a < length (iterators w)) by (eapply lookup_lt_Some; eassumption).
  assert (Hltb : b < length (iterators w)) by (eapply lookup_lt_Some; eassumption).
  cbn [for_each]. rewrite (pull_live g a b w ia ib Hab Hg Ha Hb). cbn zeta.
  destruct (fw_directory_batch fw (it_datagen ia) (it_flow ia) (total_batches_seen ia))
    as [i|e].
  2:{ exists [{| ev_call := Call_next a; ev_raised := Some e |}]. cbn.
      repeat split; try discriminate; eauto; each_event. }
  destruct (fw_directory_batch fw (it_datagen ib) (it_flow ib) (total_batches_seen ib))
    as [j|e].
  2:{ exists [{| ev_call := Call_next a; ev_raised := None |};
              {| ev_call := Call_next b; ev_raised := Some e |}]. cbn.
      rewrite <- app_assoc.
      repeat split; try discriminate; eauto; each_event. }
  match goal with |- context [show_pair fw i j ?w1] =>
    destruct (show_pair_spec i j w1) as (Hi & Hgen & evs & Hlog & Hloop & Hprop & Hfuel & Hshown);
    destruct (show_pair fw i j w1) as [o w2] end.
  cbn [fst snd log_event iterators generators log] in *.
  destruct o as [u|e| |]; cbn [fst snd propagates] in *.
  - (* the body returned: next iteration *)
    destruct (IH w2 (advance ia) (advance ib)) as (evs' & Hlog' & Hloop' & Hprop' & Hret' & Hshown').
    + rewrite Hgen. exact Hg.
    + rewrite Hi. rewrite list_lookup_insert_ne by (intros E; apply Hab; auto).
      apply list_lookup_insert_eq. exact Hlt.
    + rewrite Hi. apply list_lookup_insert_eq. rewrite length_insert. exact Hltb.
    + exists ([{| ev_call := Call_next a; ev_raised := None |};
               {| ev_call := Call_next b; ev_raised := None |}] ++ evs ++ evs').
      rewrite Hlog', Hlog, <- !app_assoc. split; [reflexivity|].
      split; [|split; [|split]].
      * apply Forall_app; split; [each_event|]. apply Forall_app; split; assumption.
      * apply propagates_app; [unfold clean; each_event|].
        apply propagates_app; assumption.
      * exact Hret'.
      * intros Hout. rewrite !shown_app, (Hshown u eq_refl), (Hshown' Hout). reflexivity.
  - (* the body raised *)
    exists ([{| ev_call := Call_next a; ev_raised := None |};
             {| ev_call := Call_next b; ev_raised := None |}] ++ evs).
    rewrite Hlog, <- !app_assoc. split; [reflexivity|].
    split; [|split; [|split]]; try discriminate.
    + apply Forall_app; split; [each_event | assumption].
    + apply (propagates_app (A:=unit) (Raised e)); [unfold clean; each_event | assumption].
  - exfalso. apply Hfuel. reflexivity.
  - contradiction.
Qed.

Lemma show_pair_quiet (i j : Array) (w : world) :
  show_never_raises fw -> fst (show_pair fw i j w) = Returned tt.
Proof.
  intros (_ & _ & _ & Hget & _ & Hfig & Himshow & Hshow).
  unfold show_pair, plt_figure, plt_imshow, plt_show, getitem, bind, call.
  destruct (Hget i Idx_0_ellipsis) as [i0 Hi0].
  destruct (Hget j Idx_0_ellipsis_0) as [j0 Hj0].
  rewrite !Hfig, Hi0, Hj0, !Himshow, Hshow. reflexivity.
Qed.

(** When no call raises, the loop is still running after any number of
    iterations. *)
Lemma for_each_quiet (g a b : nat) (fuel : nat) :
  show_never_raises fw ->
  a <> b ->
  forall (w : world) (ia ib : DirectoryIterator),
  generators w !! g = Some {| zip_fst := a; zip_snd := b; finished := false |} ->
  iterators w !! a = Some ia ->
  iterators w !! b = Some ib ->
  fst (for_each fw fuel g (show_pair fw) w) = OutOfFuel.
Proof.
  intros Hq Hab. induction fuel as [|fuel IH]; intros w ia ib Hg Ha Hb; [reflexivity|].
  assert (Hlt : a < length (iterators w)) by (eapply lookup_lt_Some; eassumption).
  assert (Hltb : b < length (iterators w)) by (eapply lookup_lt_Some; eassumption).
  cbn [for_each]. rewrite (pull_live g a b w ia ib Hab Hg Ha Hb). cbn zeta.
  destruct Hq as (H1 & H2 & Hbatch & Hrest).
  destruct (Hbatch (it_datagen ia) (it_flow ia) (total_batches_seen ia)) as [i ->].
  destruct (Hbatch (it_datagen ib) (it_flow ib) (total_batches_seen ib)) as [j ->].
  match goal with |- context [show_pair fw i j ?w1] =>
    pose proof (show_pair_quiet i j w1 (conj H1 (conj H2 (conj Hbatch Hrest)))) as Hret;
    destruct (show_pair_spec i j w1) as (Hi & Hgen & _);
    destruct (show_pair fw i j w1) as [o w2] end.
  cbn [fst snd log_event iterators generators] in *. subst o.
  apply (IH w2 (advance ia) (advance ib)).
  - rewrite Hgen. exact Hg.
  - rewrite Hi. rewrite list_lookup_insert_ne by (intros E; apply Hab; auto).
    apply list_lookup_insert_eq. exact Hlt.
  - rewrite Hi. apply list_lookup_insert_eq. rewrite length_insert. exact Hltb.
Qed.

(** ** Runs of [train_unet] *)

Section Run.

Variables (segmodel : @SegModel SegNet) (img_path mask_path : string)
  (batch_size epochs steps_per_epoch : option Z) (val_split : option float)
  (optimizer : Optimizer) (monitor model_file : option string) (seed : option Z).

(** One call of [train_unet], from a store with no objects and an empty log. *)
Local Abbreviation run show fuel :=
  (train_unet fw segmodel img_path mask_path batch_size epochs steps_per_epoch
     val_split optimizer monitor model_file seed show fuel empty_world).

Local Abbreviation ok c := ({| ev_call := c; ev_raised := None |} : event).

Ltac unfold_run :=
  unfold train_unet, ImageDataGenerator, flow_from_directory, new_iterator,
    zip_generator, import_pyplot, getitem, collect, ModelCheckpoint, compile,
    fit_generator, next, ret, bind, call.

Local Abbreviation conforms_here :=
  (conforms fw img_path mask_path batch_size epochs steps_per_epoch val_split
     optimizer monitor model_file seed).
Local Abbreviation fit_reached_here :=
  (fit_reached_as_expected fw img_path mask_path batch_size val_split optimizer
     monitor model_file seed).

Ltac stream_from g a b :=
  etransitivity;
  [ eapply (stream_of_zip g a b); first [discriminate | reflexivity]
  | reflexivity ].

Ltac stream_at_fit :=
  intros ?; first [stream_from 0 0 1 | stream_from 1 2 3].

Lemma run_without_show (fuel : nat) :
  propagates (fst (run false fuel)) (log (snd (run false fuel))) /\
  Forall conforms_here (calls (snd (run false fuel))) /\
  fit_reached_here (fst (run false fuel)) (snd (run false fuel)) /\
  returned_from_fit fw (fst (run false fuel)) (snd (run false fuel)).
Proof.
  unfold fit_reached_as_expected, returned_from_fit, calls.
  unfold_run. run_calls.
  all: split; [unfold clean; repeat split; eauto; each_event|].
  all: split; [each_event; repeat split; auto; stream_at_fit|].
  all: split; [|intros h Hh; try discriminate Hh].
  all: try (injection Hh as <-; do 2 eexists; split; [reflexivity|eassumption]).
  all: intros ? ? Hin; cbn in Hin.
  all: repeat (destruct Hin as [Hin|Hin]; [try discriminate Hin|]).
  all: try contradiction.
  all: injection Hin as <- <-; cbn.
  all: repeat split; eauto 20.
  all: try (match goal with E : ?x = _ |- context [?x] => rewrite E; reflexivity end).
Qed.

Lemma loop_events_calls (P : pycall -> Prop) (evs : list event) :
  (forall c, loop_call c -> P c) ->
  Forall (fun ev => loop_call (ev_call ev)) evs ->
  Forall P (map ev_call evs).
Proof.
  intros HP H. induction H as [|ev evs Hev _ IH]; simpl; constructor; auto.
Qed.

Lemma loop_call_conforms (c : pycall) : loop_call c -> conforms_here c.
Proof. destruct c; simpl; tauto. Qed.

Lemma loop_call_not_training (c : pycall) : loop_call c -> ~ training_call c.
Proof. destruct c; simpl; tauto. Qed.

Lemma run_with_show (fuel : nat) :
  propagates (fst (run true fuel)) (log (snd (run true fuel))) /\
  Forall conforms_here (calls (snd (run true fuel))) /\
  Forall (fun c => ~ training_call c) (calls (snd (run true fuel))) /\
  (forall h, fst (run true fuel) <> Returned h).
Proof.
  unfold calls, train_unet, ImageDataGenerator, flow_from_directory, new_iterator,
    zip_generator, import_pyplot, ret, bind, call.
  repeat (cbn -[stream_of for_each plt_figure plt_imshow plt_show getitem next];
          try library_case).
  all: try (repeat split; try discriminate; unfold clean; eauto; each_event;
            repeat split; auto; fail).
  match goal with |- context [for_each fw fuel 0 ?b ?W] =>
    change b with (show_pair fw);
    destruct (for_each_spec 0 0 1 fuel ltac:(discriminate) W _ _ eq_refl eq_refl eq_refl)
      as (evs & Hlog & Hloop & Hprop & Hret & _);
    destruct (for_each fw fuel 0 (show_pair fw) W) as [o w']
  end.
  cbn [fst snd log] in Hlog, Hprop, Hret.
  destruct o as [u|e| |];
    [exfalso; apply (Hret u); reflexivity | | | contradiction].
  all: cbn [fst snd]; rewrite Hlog, map_app.
  all: split; [apply propagates_app; [unfold clean; each_event | exact Hprop]|].
  all: split; [apply Forall_app; split;
               [each_event; repeat split; auto
               | apply loop_events_calls; [apply loop_call_conforms | exact Hloop]]|].
  all: split; [apply Forall_app; split;
               [each_event
               | apply loop_events_calls; [apply loop_call_not_training | exact Hloop]]|].
  all: discriminate.
Qed.

Lemma run_with_show_quiet (fuel : nat) :
  show_never_raises fw ->
  fst (run true fuel) = OutOfFuel /\
  shown (log (snd (run true fuel))) = fuel.
Proof.
  intros Hq. pose proof Hq as (HIDG & Hflow & _ & _ & Himport & _).
  unfold train_unet, ImageDataGenerator, flow_from_directory, new_iterator,
    zip_generator, import_pyplot, ret, bind, call.
  rewrite !HIDG, !Hflow, Himport.
  cbn -[stream_of for_each plt_figure plt_imshow plt_show getitem next].
  match goal with |- context [for_each fw fuel 0 ?b ?W] =>
    change b with (show_pair fw);
    destruct (for_each_spec 0 0 1 fuel ltac:(discriminate) W _ _ eq_refl eq_refl eq_refl)
      as (evs & Hlog & _ & _ & _ & Hshown);
    pose proof (for_each_quiet 0 0 1 fuel Hq ltac:(discriminate) W _ _
                  eq_refl eq_refl eq_refl) as Hout;
    destruct (for_each fw fuel 0 (show_pair fw) W) as [o w']
  end.
  cbn [fst snd log] in Hlog, Hshown, Hout. subst o. cbn [fst snd].
  split; [reflexivity|].
  rewrite Hlog, shown_app, (Hshown eq_refl). reflexivity.
Qed.

(** The four facts of [run_without_show] hold of every run. *)
Lemma run_any (show : bool) (fuel : nat) :
  propagates (fst (run show fuel)) (log (snd (run show fuel))) /\
  Forall conforms_here (calls (snd (run show fuel))) /\
  fit_reached_here (fst (run show fuel)) (snd (run show fuel)) /\
  returned_from_fit fw (fst (run show fuel)) (snd (run show fuel)).
Proof.
  destruct show; [|apply run_without_show].
  destruct (run_with_show fuel) as (Hp & Hc & Ht & Hr).
  split; [exact Hp | split; [exact Hc | split]].
  - intros m a Hin. exfalso.
    rewrite List.Forall_forall in Ht. apply (Ht _ Hin). exact I.
  - intros h Hh. exfalso. apply (Hr h Hh).
Qed.


(** ** The claims *)

Local Abbreviation datagen_here := (expected_datagen val_split).
Local Abbreviation flow_here := (expected_flow batch_size seed).
Local Abbreviation checkpoint_here := (expected_checkpoint monitor model_file).
Local Abbreviation compile_here := (expected_compile optimizer).

Lemma fit_conforms (show : bool) (fuel : nat) m a :
  In (Call_fit_generator m a) (calls (snd (run show fuel))) ->
  conforms_here (Call_fit_generator m a).
Proof.
  intros Hin. destruct (run_any show fuel) as (_ & Hc & _).
  rewrite List.Forall_forall in Hc. exact (Hc _ Hin).
Qed.

(** C1, as the code has it. In every run that reaches the training API,
    the k-th pair of the training stream handed to it holds the image batch
    number k+1 and the mask batch number k of the two training iterators
    (batches counted from 0): the pairs are one image batch apart, because
    [train_unet] itself draws the first image batch to read the input
    shape. Stated for directory contents on which no batch raises. *)
Theorem training_pairs_one_batch_apart (show : bool) (fuel : nat)
    (images masks : nat -> Array) m a :
  (forall n, fw_directory_batch fw datagen_here
               (flow_here img_path "rgb" "training") n = Ok (images n)) ->
  (forall n, fw_directory_batch fw datagen_here
               (flow_here mask_path "grayscale" "training") n = Ok (masks n)) ->
  In (Call_fit_generator m a) (calls (snd (run show fuel))) ->
  forall k, Fit.generator a k = PYield (images (S k)) (masks k).
Proof.
  intros Hi Hm Hin k.
  destruct (fit_conforms show fuel m a Hin) as (_ & _ & _ & _ & _ & Ht & _).
  rewrite Ht. unfold expected_stream.
  apply (zip_of_yield _ _ (fun n => images (S n)) masks); intros n; unfold produced_from.
  - apply Hi.
  - apply Hm.
Qed.

(** C2. A run that returns returns the [History] that [fit_generator], its
    last call, produced; the only callback passed to [fit_generator] is a
    [ModelCheckpoint] constructed in this run on [model_file], monitoring
    [monitor], with [save_best_only=True]. *)
Theorem returns_history_with_checkpoint (show : bool) (fuel : nat) (h : History) :
  fst (run show fuel) = Returned h ->
  exists m a,
    last (calls (snd (run show fuel))) = Some (Call_fit_generator m a) /\
    fw_fit_generator fw m a = Ok h /\
    (exists checkpoint,
       Fit.callbacks a = [checkpoint] /\
       In (Call_ModelCheckpoint checkpoint) (calls (snd (run show fuel))) /\
       Checkpoint.filepath checkpoint = model_file /\
       Checkpoint.monitor checkpoint = monitor /\
       Checkpoint.save_best_only checkpoint = true).
Proof.
  intros Hret. destruct (run_any show fuel) as (_ & _ & Hfit & Hr).
  destruct (Hr h Hret) as (m & a & Hlast & Hh).
  assert (Hin : In (Call_fit_generator m a) (calls (snd (run show fuel)))).
  { apply list_elem_of_In. apply last_Some_elem_of. exact Hlast. }
  exists m, a. split; [exact Hlast|]. split; [exact Hh|].
  destruct (fit_conforms show fuel m a Hin) as (_ & _ & Hcb & _).
  destruct (Hfit m a Hin) as (_ & _ & _ & Hck & _).
  exists checkpoint_here. split; [exact Hcb|]. split; [|repeat split].
  revert Hck. generalize (calls (snd (run show fuel))). intros l.
  induction l as [|x [|y l] IH]; simpl; intros H; [contradiction | contradiction |].
  destruct H as [H|H]; [left; exact H | right; apply IH; exact H].
Qed.

(** C3. Both data generators are constructed with [validation_split] equal
    to [val_split]; and where the training API is reached, the pipeline was
    built by four [flow_from_directory] calls (images and masks, subsets
    "training" and "validation", over [img_path] and [mask_path]), the
    training stream draws from the two "training" iterators, and a second
    stream, drawing from the two "validation" iterators, is passed as
    [validation_data]. *)
Theorem splits_training_and_validation (show : bool) (fuel : nat) :
  (forall a, In (Call_ImageDataGenerator a) (calls (snd (run show fuel))) ->
     DataGen.validation_split a = val_split) /\
  (forall datagen a,
     In (Call_flow_from_directory datagen a) (calls (snd (run show fuel))) ->
     DataGen.validation_split datagen = val_split /\
     (Flow.subset a = "training"%string \/ Flow.subset a = "validation"%string)) /\
  (forall m a, In (Call_fit_generator m a) (calls (snd (run show fuel))) ->
     firstn 6 (calls (snd (run show fuel))) =
       [Call_ImageDataGenerator datagen_here;
        Call_ImageDataGenerator datagen_here;
        Call_flow_from_directory datagen_here (flow_here img_path "rgb" "training");
        Call_flow_from_directory datagen_here (flow_here mask_path "grayscale" "training");
        Call_flow_from_directory datagen_here (flow_here img_path "rgb" "validation");
        Call_flow_from_directory datagen_here (flow_here mask_path "grayscale" "validation")] /\
     (forall k, Fit.generator a k =
        zip_of (produced_from fw 1 datagen_here (flow_here img_path "rgb" "training"))
               (produced_from fw 0 datagen_here (flow_here mask_path "grayscale" "training"))
               k) /\
     (forall k, Fit.validation_data a k =
        zip_of (produced_from fw 0 datagen_here (flow_here img_path "rgb" "validation"))
               (produced_from fw 0 datagen_here (flow_here mask_path "grayscale" "validation"))
               k)).
Proof.
  destruct (run_any show fuel) as (_ & Hc & Hfit & _).
  rewrite List.Forall_forall in Hc.
  split; [|split].
  - intros a Hin. specialize (Hc _ Hin). simpl in Hc. subst a. reflexivity.
  - intros datagen a Hin. specialize (Hc _ Hin). simpl in Hc.
    destruct Hc as [-> Ha]. split; [reflexivity|].
    destruct Ha as [-> | [-> | [-> | ->]]]; simpl; auto.
  - intros m a Hin. destruct (Hfit m a Hin) as (Hsetup & _).
    specialize (Hc _ Hin). simpl in Hc.
    destruct Hc as (_ & _ & _ & _ & _ & Ht & Hv).
    split; [exact Hsetup|]. split; [exact Ht | exact Hv].
Qed.

(** C4. Every [compile] call of a run has the loss
    [tf.keras.losses.binary_crossentropy], the [optimizer] argument and the
    metrics list [[mts.jaccard_index, mts.dice_coef]]; and where the
    training API is reached, the call just before it is that [compile] call,
    and the model handed to [fit_generator] is the one it compiled. *)
Theorem compiles_with_custom_metrics (show : bool) (fuel : nat) :
  (forall m a, In (Call_compile m a) (calls (snd (run show fuel))) ->
     Compile.metrics a = [mts "jaccard_index"; mts "dice_coef"] /\
     Compile.loss a = tf ".keras.losses" "binary_crossentropy" /\
     Compile.optimizer a = optimizer) /\
  (forall m a, In (Call_fit_generator m a) (calls (snd (run show fuel))) ->
     last (calls (snd (run show fuel))) = Some (Call_fit_generator m a) /\
     exists m0 a0,
       last (removelast (calls (snd (run show fuel)))) = Some (Call_compile m0 a0) /\
       Compile.metrics a0 = [mts "jaccard_index"; mts "dice_coef"] /\
       fw_compile fw m0 a0 = Ok m).
Proof.
  destruct (run_any show fuel) as (_ & Hc & Hfit & _).
  rewrite List.Forall_forall in Hc.
  split.
  - intros m a Hin. specialize (Hc _ Hin). simpl in Hc. subst a. repeat split.
  - intros m a Hin. destruct (Hfit m a Hin) as (_ & Hlast & (m0 & Hcomp & Hm) & _).
    split; [exact Hlast|]. exists m0, compile_here. repeat split; assumption.
Qed.

(** The pipeline calls of a run, by position: a run makes them in the order
    of [expected_setup], with its arguments, and it is past them when it is
    in the debugging loop. *)
Lemma run_without_show_setup (fuel : nat) :
  firstn 6 (calls (snd (run false fuel))) `prefix_of`
    expected_setup img_path mask_path batch_size val_split seed /\
  fst (run false fuel) <> OutOfFuel.
Proof.
  unfold calls. unfold_run. run_calls.
  all: split; [eexists; reflexivity | discriminate].
Qed.

Lemma run_with_show_setup (fuel : nat) :
  firstn 6 (calls (snd (run true fuel))) `prefix_of`
    expected_setup img_path mask_path batch_size val_split seed /\
  (fst (run true fuel) = OutOfFuel ->
   firstn 6 (calls (snd (run true fuel))) =
   expected_setup img_path mask_path batch_size val_split seed).
Proof.
  unfold calls, train_unet, ImageDataGenerator, flow_from_directory, new_iterator,
    zip_generator, import_pyplot, ret, bind, call.
  repeat (cbn -[stream_of for_each plt_figure plt_imshow plt_show getitem next];
          try library_case).
  all: try (split; [eexists; reflexivity | discriminate]).
  match goal with |- context [for_each fw fuel 0 ?b ?W] =>
    change b with (show_pair fw);
    destruct (for_each_spec 0 0 1 fuel ltac:(discriminate) W _ _
                eq_refl eq_refl eq_refl) as (evs & Hlog & _ & _ & Hret & _);
    destruct (for_each fw fuel 0 (show_pair fw) W) as [o w']
  end.
  cbn [fst snd log] in Hlog, Hret.
  destruct o as [u|e| |]; [exfalso; apply (Hret u); reflexivity | ..].
  all: cbn [fst snd]; rewrite Hlog, map_app; cbn [map ev_call app firstn].
  all: split; [eexists; rewrite app_nil_r; reflexivity | intros _; reflexivity].
Qed.

Lemma run_setup (show : bool) (fuel : nat) :
  firstn 6 (calls (snd (run show fuel))) `prefix_of`
    expected_setup img_path mask_path batch_size val_split seed /\
  (fst (run show fuel) = OutOfFuel ->
   firstn 6 (calls (snd (run show fuel))) =
   expected_setup img_path mask_path batch_size val_split seed).
Proof.
  destruct show; [apply run_with_show_setup|].
  destruct (run_without_show_setup fuel) as [H1 H2].
  split; [exact H1 | intros H; contradiction].
Qed.

(** C5. Every library call of every run carries the arguments of
    [train_unet] as they were given, each in the call it belongs to:
    [val_split] in both data generators; [img_path] in the "rgb" iterators
    and [mask_path] in the "grayscale" ones, with [batch_size] and [seed]
    in all four; [model_file] and [monitor] in the checkpoint; [optimizer]
    in [compile]; [steps_per_epoch] (twice) and [epochs] in
    [fit_generator]. The calls are made: the first six calls of a run are
    the pipeline calls, in order, with these arguments; a run stops short of
    a call only when an earlier call raised (the exception comes out) or,
    past the pipeline, in the debugging loop; and a run that returns has
    made the pipeline calls, constructed the checkpoint, compiled and
    trained with them. *)
Theorem arguments_forwarded_unchanged (show : bool) (fuel : nat) :
  Forall
    (fun c =>
       match c with
       | Call_ImageDataGenerator a => DataGen.validation_split a = val_split
       | Call_flow_from_directory datagen a =>
           DataGen.validation_split datagen = val_split /\
           ((Flow.directory a = img_path /\ Flow.color_mode a = "rgb"%string) \/
            (Flow.directory a = mask_path /\ Flow.color_mode a = "grayscale"%string)) /\
           Flow.batch_size a = batch_size /\
           Flow.seed a = seed
       | Call_ModelCheckpoint a =>
           Checkpoint.filepath a = model_file /\ Checkpoint.monitor a = monitor
       | Call_compile _ a => Compile.optimizer a = optimizer
       | Call_fit_generator _ a =>
           Fit.steps_per_epoch a = steps_per_epoch /\
           Fit.epochs a = epochs /\
           Fit.validation_steps a = steps_per_epoch
       | _ => True
       end)
    (calls (snd (run show fuel))) /\
  firstn 6 (calls (snd (run show fuel))) `prefix_of`
    [Call_ImageDataGenerator datagen_here;
     Call_ImageDataGenerator datagen_here;
     Call_flow_from_directory datagen_here (flow_here img_path "rgb" "training");
     Call_flow_from_directory datagen_here (flow_here mask_path "grayscale" "training");
     Call_flow_from_directory datagen_here (flow_here img_path "rgb" "validation");
     Call_flow_from_directory datagen_here (flow_here mask_path "grayscale" "validation")] /\
  fst (run show fuel) <> Stuck /\
  (forall e, fst (run show fuel) = Raised e ->
     exists c, last (log (snd (run show fuel))) =
               Some {| ev_call := c; ev_raised := Some e |}) /\
  (fst (run show fuel) = OutOfFuel ->
   firstn 6 (calls (snd (run show fuel))) =
     [Call_ImageDataGenerator datagen_here;
      Call_ImageDataGenerator datagen_here;
      Call_flow_from_directory datagen_here (flow_here img_path "rgb" "training");
      Call_flow_from_directory datagen_here (flow_here mask_path "grayscale" "training");
      Call_flow_from_directory datagen_here (flow_here img_path "rgb" "validation");
      Call_flow_from_directory datagen_here (flow_here mask_path "grayscale" "validation")]) /\
  (forall h, fst (run show fuel) = Returned h ->
     firstn 6 (calls (snd (run show fuel))) =
       [Call_ImageDataGenerator datagen_here;
        Call_ImageDataGenerator datagen_here;
        Call_flow_from_directory datagen_here (flow_here img_path "rgb" "training");
        Call_flow_from_directory datagen_here (flow_here mask_path "grayscale" "training");
        Call_flow_from_directory datagen_here (flow_here img_path "rgb" "validation");
        Call_flow_from_directory datagen_here (flow_here mask_path "grayscale" "validation")] /\
     In (Call_ModelCheckpoint checkpoint_here)
        (removelast (calls (snd (run show fuel)))) /\
     exists m0 m a,
       last (removelast (calls (snd (run show fuel)))) =
         Some (Call_compile m0 compile_here) /\
       last (calls (snd (run show fuel))) = Some (Call_fit_generator m a) /\
       fw_fit_generator fw m a = Ok h /\
       Fit.steps_per_epoch a = steps_per_epoch /\
       Fit.epochs a = epochs /\
       Fit.validation_steps a = steps_per_epoch /\
       Fit.callbacks a = [checkpoint_here]).
Proof.
  destruct (run_any show fuel) as (Hp & Hc & Hfit & Hr).
  destruct (run_setup show fuel) as (Hpre & Hloop).
  split; [|split; [exact Hpre | split; [|split; [|split; [exact Hloop|]]]]].
  - eapply Forall_impl; [exact Hc|].
    intros c. destruct c; simpl; auto.
    + intros ->. reflexivity.
    + intros [-> Ha]. split; [reflexivity|].
      destruct Ha as [-> | [-> | [-> | ->]]]; simpl; auto.
    + intros ->. split; reflexivity.
    + intros ->. reflexivity.
    + intros (H1 & H2 & _ & _ & H3 & _). auto.
  - intros HS. rewrite HS in Hp. exact Hp.
  - intros e He. rewrite He in Hp. destruct Hp as [Hl _]. exact Hl.
  - intros h Hh. destruct (Hr h Hh) as (m & a & Hlast & Hok).
    assert (Hin : In (Call_fit_generator m a) (calls (snd (run show fuel)))).
    { apply list_elem_of_In. apply last_Some_elem_of. exact Hlast. }
    destruct (Hfit m a Hin) as (Hsetup & _ & (m0 & Hcomp & _) & Hck & _).
    rewrite List.Forall_forall in Hc. specialize (Hc _ Hin). simpl in Hc.
    destruct Hc as (H1 & H2 & H3 & _ & H5 & _).
    split; [exact Hsetup|]. split; [exact Hck|].
    exists m0, m, a. repeat split; assumption.
Qed.

(** C6. No call before the last one of a run raised; an exception comes
    out of [train_unet] exactly when the last library call of the run
    raised it, and it is that exception; and the function's own steps never
    fail (no step of the embedding is stuck). *)
Theorem exceptions_propagate_unchanged (show : bool) (fuel : nat) :
  clean (removelast (log (snd (run show fuel)))) /\
  (forall e, fst (run show fuel) = Raised e <->
     exists c, last (log (snd (run show fuel))) =
               Some {| ev_call := c; ev_raised := Some e |}) /\
  fst (run show fuel) <> Stuck.
Proof.
  destruct (run_any show fuel) as (Hp & _).
  destruct (fst (run show fuel)) as [h|e0| |]; simpl in Hp.
  - split; [apply clean_removelast; exact Hp|]. split; [|discriminate].
    intros e. split; [discriminate|].
    intros [c Hc]. apply (clean_last _ _ Hp) in Hc. discriminate Hc.
  - destruct Hp as [[c0 Hc0] Hl]. split; [exact Hl|]. split; [|discriminate].
    intros e. split.
    + intros [= ->]. exists c0. exact Hc0.
    + intros [c Hc]. rewrite Hc0 in Hc. injection Hc as _ ->. reflexivity.
  - split; [apply clean_removelast; exact Hp|]. split; [|discriminate].
    intros e. split; [discriminate|].
    intros [c Hc]. apply (clean_last _ _ Hp) in Hc. discriminate Hc.
  - contradiction.
Qed.

(** C7, as the code has it. Where the training API is reached, the
    validation stream is the element-wise zip of what the two validation
    iterators produce, and nothing in a pair is transformed; the training
    stream is the element-wise zip of what the mask iterator produces with
    what the image iterator produces after its first batch. So when the
    first batches load, the first training pair holds the second image
    batch, where the zip of what the two iterators produce begins with the
    first. *)
Theorem training_stream_skips_first_image_batch (show : bool) (fuel : nat) m a :
  In (Call_fit_generator m a) (calls (snd (run show fuel))) ->
  (forall k, Fit.validation_data a k =
     zip_of (produced_from fw 0 datagen_here (flow_here img_path "rgb" "validation"))
            (produced_from fw 0 datagen_here (flow_here mask_path "grayscale" "validation"))
            k) /\
  (forall k, Fit.generator a k =
     zip_of (produced_from fw 1 datagen_here (flow_here img_path "rgb" "training"))
            (produced_from fw 0 datagen_here (flow_here mask_path "grayscale" "training"))
            k) /\
  (forall i0 i1 j0,
     fw_directory_batch fw datagen_here (flow_here img_path "rgb" "training") 0 = Ok i0 ->
     fw_directory_batch fw datagen_here (flow_here img_path "rgb" "training") 1 = Ok i1 ->
     fw_directory_batch fw datagen_here (flow_here mask_path "grayscale" "training") 0 = Ok j0 ->
     Fit.generator a 0 = PYield i1 j0 /\
     zip_of (produced_from fw 0 datagen_here (flow_here img_path "rgb" "training"))
            (produced_from fw 0 datagen_here (flow_here mask_path "grayscale" "training"))
            0 = PYield i0 j0).
Proof.
  intros Hin.
  destruct (fit_conforms show fuel m a Hin) as (_ & _ & _ & _ & _ & Ht & Hv).
  split; [exact Hv|]. split; [exact Ht|].
  intros i0 i1 j0 H0 H1 Hj. rewrite Ht. unfold expected_stream.
  split; cbn [zip_of]; unfold produced_from; cbn [Nat.add].
  - rewrite H1, Hj. reflexivity.
  - rewrite H0, Hj. reflexivity.
Qed.

(** C8. Whatever [monitor] is, every [ModelCheckpoint] a run constructs
    monitors it in mode "max", never "min" or "auto". *)
Theorem checkpoint_mode_is_max (show : bool) (fuel : nat) (a : Checkpoint.args) :
  In (Call_ModelCheckpoint a) (calls (snd (run show fuel))) ->
  Checkpoint.monitor a = monitor /\
  Checkpoint.mode a = "max"%string /\
  Checkpoint.mode a <> "min"%string /\
  Checkpoint.mode a <> "auto"%string.
Proof.
  intros Hin. destruct (run_any show fuel) as (_ & Hc & _).
  rewrite List.Forall_forall in Hc. specialize (Hc _ Hin). simpl in Hc. subst a.
  repeat split; discriminate.
Qed.

(** C10. A run can return only with [show] false. With [show] true it makes
    none of the calls that build, compile and train the model; and when no
    call of the debugging path raises, the run is still inside the loop
    after any number [fuel] of completed iterations. *)
Theorem show_never_returns (fuel : nat) :
  (forall show h, fst (run show fuel) = Returned h -> show = false) /\
  Forall (fun c => ~ training_call c) (calls (snd (run true fuel))) /\
  (show_never_raises fw ->
   fst (run true fuel) = OutOfFuel /\ shown (log (snd (run true fuel))) = fuel).
Proof.
  destruct (run_with_show fuel) as (_ & _ & Ht & Hr).
  split; [|split].
  - intros [|] h Hh; [exfalso; exact (Hr h Hh) | reflexivity].
  - exact Ht.
  - apply run_with_show_quiet.
Qed.

End Run.

End Properties.

(** ** Two runs over the same directories *)


(** ** The claims on the demo environment *)

Local Open Scope list_scope.

(** The demo call with the defaults reaches the training API. *)
Lemma demo_reaches_fit :
  exists m a, In (Call_fit_generator m a) (calls (snd (demo_call None false 0))).
Proof.
  do 2 eexists. cbn -[stream_of]. do 11 right. left. reflexivity.
Qed.

(** C1 on the demo call: the first pair handed to the training API holds
    image batch 1 and mask batch 0. *)
Lemma training_pairs_one_batch_apart_demo :
  exists m a,
    In (Call_fit_generator m a) (calls (snd (demo_call None false 0))) /\
    Fit.generator a 0 =
    PYield (Batch "images" "training" 1) (Batch "masks" "training" 0).
Proof.
  destruct demo_reaches_fit as (m & a & Hin). exists m, a. split; [exact Hin|].
  apply (training_pairs_one_batch_apart (demo_fw None) demo_segmodel "images" "masks"
           (Some 16%Z) (Some 25%Z) (Some 3125%Z) (Some 0x1.999999999999ap-3%float)
           "Adam"%string (Some "val_jaccard_index"%string) (Some "unet.h5"%string)
           (Some 1%Z) false 0
           (fun n => Batch "images" "training" n) (fun n => Batch "masks" "training" n)
           m a).
  - intros n. reflexivity.
  - intros n. reflexivity.
  - exact Hin.
Defined.

(** What the demo call returns: the training API saw image batches 1 and 2
    paired with mask batches 0 and 1, and validation batches paired as
    drawn. *)
Example demo_call_returns :
  fst (demo_call None false 0) =
  Returned
    {| seen_train :=
         [PYield (Batch "images" "training" 1) (Batch "masks" "training" 0);
          PYield (Batch "images" "training" 2) (Batch "masks" "training" 1)];
       seen_val :=
         [PYield (Batch "images" "validation" 0) (Batch "masks" "validation" 0);
          PYield (Batch "images" "validation" 1) (Batch "masks" "validation" 1)] |}.
Proof. vm_compute. reflexivity. Qed.

(** A missing mask directory: the exception of [flow_from_directory] comes
    out of [train_unet], after four logged calls. *)
Example demo_call_missing_masks :
  fst (demo_call (Some "masks"%string) false 0) = Raised "FileNotFoundError"%string /\
  length (log (snd (demo_call (Some "masks"%string) false 0))) = 4.
Proof. vm_compute. split; reflexivity. Qed.

(** C2 on the demo call. *)
Lemma returns_history_with_checkpoint_demo :
  exists h,
    fst (demo_call None false 0) = Returned h /\
    exists m a,
      last (calls (snd (demo_call None false 0))) = Some (Call_fit_generator m a) /\
      fw_fit_generator (demo_fw None) m a = Ok h /\
      (exists checkpoint,
         Fit.callbacks a = [checkpoint] /\
         In (Call_ModelCheckpoint checkpoint) (calls (snd (demo_call None false 0))) /\
         Checkpoint.filepath checkpoint = Some "unet.h5"%string /\
         Checkpoint.monitor checkpoint = Some "val_jaccard_index"%string /\
         Checkpoint.save_best_only checkpoint = true).
Proof.
  eexists. split; [exact demo_call_returns|].
  apply (returns_history_with_checkpoint (demo_fw None) demo_segmodel "images" "masks"
           (Some 16%Z) (Some 25%Z) (Some 3125%Z) (Some 0x1.999999999999ap-3%float)
           "Adam"%string (Some "val_jaccard_index"%string) (Some "unet.h5"%string)
           (Some 1%Z) false 0).
  exact demo_call_returns.
Defined.

(** C7 on the demo call: the first training pair is not the first pair of
    the zip of what the two training iterators produce. *)
Lemma training_stream_skips_first_image_batch_demo :
  exists m a,
    In (Call_fit_generator m a) (calls (snd (demo_call None false 0))) /\
    Fit.generator a 0 =
      PYield (Batch "images" "training" 1) (Batch "masks" "training" 0) /\
    zip_of
      (produced_from (demo_fw None) 0 (expected_datagen (Some 0x1.999999999999ap-3%float))
         (expected_flow (Some 16%Z) (Some 1%Z) "images" "rgb" "training"))
      (produced_from (demo_fw None) 0 (expected_datagen (Some 0x1.999999999999ap-3%float))
         (expected_flow (Some 16%Z) (Some 1%Z) "masks" "grayscale" "training"))
      0 =
      PYield (Batch "images" "training" 0) (Batch "masks" "training" 0).
Proof.
  destruct demo_reaches_fit as (m & a & Hin). exists m, a. split; [exact Hin|].
  destruct (training_stream_skips_first_image_batch (demo_fw None) demo_segmodel
              "images" "masks" (Some 16%Z) (Some 25%Z) (Some 3125%Z)
              (Some 0x1.999999999999ap-3%float) "Adam"%string
              (Some "val_jaccard_index"%string) (Some "unet.h5"%string) (Some 1%Z)
              false 0 m a Hin) as (_ & _ & H).
  apply (H (Batch "images" "training" 0) (Batch "images" "training" 1)
           (Batch "masks" "training" 0)); reflexivity.
Defined.

(** C8 on a call that monitors a loss: the checkpoint is still constructed
    in mode "max". *)
Lemma checkpoint_mode_is_max_demo :
  exists a,
    In (Call_ModelCheckpoint a)
       (calls (snd (train_unet (demo_fw None) demo_segmodel "images" "masks"
                      (Some 16%Z) (Some 25%Z) (Some 3125%Z)
                      (Some 0x1.999999999999ap-3%float) "Adam"%string
                      (Some "val_loss"%string) (Some "unet.h5"%string) (Some 1%Z)
                      false 0 empty_world))) /\
    Checkpoint.monitor a = Some "val_loss"%string /\
    Checkpoint.mode a = "max"%string /\
    Checkpoint.mode a <> "min"%string /\
    Checkpoint.mode a <> "auto"%string.
Proof.
  assert (Hin : exists a,
    In (Call_ModelCheckpoint a)
       (calls (snd (train_unet (demo_fw None) demo_segmodel "images" "masks"
                      (Some 16%Z) (Some 25%Z) (Some 3125%Z)
                      (Some 0x1.999999999999ap-3%float) "Adam"%string
                      (Some "val_loss"%string) (Some "unet.h5"%string) (Some 1%Z)
                      false 0 empty_world)))).
  { eexists. cbn -[stream_of]. do 9 right. left. reflexivity. }
  destruct Hin as (a & Hin). exists a. split; [exact Hin|].
  exact (checkpoint_mode_is_max (demo_fw None) demo_segmodel "images" "masks"
           (Some 16%Z) (Some 25%Z) (Some 3125%Z) (Some 0x1.999999999999ap-3%float)
           "Adam"%string (Some "val_loss"%string) (Some "unet.h5"%string) (Some 1%Z)
           false 0 a Hin).
Defined.

(** C10 on the demo call with [show=True]: after five iterations the run is
    still in the loop. *)
Lemma show_never_returns_demo :
  fst (demo_call None true 5) = OutOfFuel /\
  shown (log (snd (demo_call None true 5))) = 5.
Proof.
  apply (show_never_returns (demo_fw None) demo_segmodel "images" "masks"
           (Some 16%Z) (Some 25%Z) (Some 3125%Z) (Some 0x1.999999999999ap-3%float)
           "Adam"%string (Some "val_jaccard_index"%string) (Some "unet.h5"%string)
           (Some 1%Z) 5).
  unfold show_never_raises. cbn. repeat split; eauto.
Defined.


(** C3 on the demo call: the validation stream handed to the training API
    begins with the first validation batches of the two directories. *)
Lemma splits_training_and_validation_demo :
  exists m a,
    In (Call_fit_generator m a) (calls (snd (demo_call None false 0))) /\
    Fit.validation_data a 0 =
    PYield (Batch "images" "validation" 0) (Batch "masks" "validation" 0).
Proof.
  destruct demo_reaches_fit as (m & a & Hin). exists m, a. split; [exact Hin|].
  destruct (splits_training_and_validation (demo_fw None) demo_segmodel
              "images" "masks" (Some 16%Z) (Some 25%Z) (Some 3125%Z)
              (Some 0x1.999999999999ap-3%float) "Adam"%string
              (Some "val_jaccard_index"%string) (Some "unet.h5"%string) (Some 1%Z)
              false 0) as (_ & _ & H).
  destruct (H m a Hin) as (_ & _ & Hv). rewrite Hv. reflexivity.
Defined.

(** C4 on the demo call: the model trained is the one the compile call
    gave. *)
Lemma compiles_with_custom_metrics_demo :
  exists m a,
    In (Call_fit_generator m a) (calls (snd (demo_call None false 0))) /\
    exists m0 a0,
      last (removelast (calls (snd (demo_call None false 0)))) =
        Some (Call_compile m0 a0) /\
      Compile.metrics a0 = [mts "jaccard_index"; mts "dice_coef"] /\
      fw_compile (demo_fw None) m0 a0 = Ok m.
Proof.
  destruct demo_reaches_fit as (m & a & Hin). exists m, a. split; [exact Hin|].
  destruct (compiles_with_custom_metrics (demo_fw None) demo_segmodel
              "images" "masks" (Some 16%Z) (Some 25%Z) (Some 3125%Z)
              (Some 0x1.999999999999ap-3%float) "Adam"%string
              (Some "val_jaccard_index"%string) (Some "unet.h5"%string) (Some 1%Z)
              false 0) as (_ & H).
  destruct (H m a Hin) as (_ & Hc). exact Hc.
Defined.

(** C6 on the demo call with a missing mask directory: the exception that
    comes out is the one the last logged call raised. *)
Lemma exceptions_propagate_unchanged_demo :
  fst (demo_call (Some "masks"%string) false 0) = Raised "FileNotFoundError"%string /\
  exists c,
    last (log (snd (demo_call (Some "masks"%string) false 0))) =
    Some {| ev_call := c; ev_raised := Some "FileNotFoundError"%string |}.
Proof.
  split; [exact (proj1 demo_call_missing_masks)|].
  apply (proj1 (proj2 (exceptions_propagate_unchanged (demo_fw (Some "masks"%string))
                         demo_segmodel "images" "masks" (Some 16%Z) (Some 25%Z)
                         (Some 3125%Z) (Some 0x1.999999999999ap-3%float)
                         "Adam"%string (Some "val_jaccard_index"%string)
                         (Some "unet.h5"%string) (Some 1%Z) false 0))).
  exact (proj1 demo_call_missing_masks).
Defined.

(** C5 on the demo call, which returns: the pipeline calls carry "images",
    "masks", the batch size 16, the seed 1 and the split; the checkpoint
    carries "unet.h5" and "val_jaccard_index"; [fit_generator] carries 3125
    steps (twice) and 25 epochs. *)
Lemma arguments_forwarded_unchanged_demo :
  firstn 6 (calls (snd (demo_call None false 0))) =
    expected_setup "images" "masks" (Some 16%Z) (Some 0x1.999999999999ap-3%float)
      (Some 1%Z) /\
  In (Call_ModelCheckpoint
        (expected_checkpoint (Some "val_jaccard_index"%string) (Some "unet.h5"%string)))
     (removelast (calls (snd (demo_call None false 0)))) /\
  exists m0 m a,
    last (removelast (calls (snd (demo_call None false 0)))) =
      Some (Call_compile m0 (expected_compile "Adam"%string)) /\
    last (calls (snd (demo_call None false 0))) = Some (Call_fit_generator m a) /\
    Fit.steps_per_epoch a = Some 3125%Z /\
    Fit.epochs a = Some 25%Z /\
    Fit.validation_steps a = Some 3125%Z.
Proof.
  destruct (arguments_forwarded_unchanged (demo_fw None) demo_segmodel
              "images" "masks" (Some 16%Z) (Some 25%Z) (Some 3125%Z)
              (Some 0x1.999999999999ap-3%float) "Adam"%string
              (Some "val_jaccard_index"%string) (Some "unet.h5"%string) (Some 1%Z)
              false 0) as (_ & _ & _ & _ & _ & H).
  destruct (H _ demo_call_returns)
    as (Hsetup & Hck & m0 & m & a & Hcomp & Hlast & _ & Hs & He & Hv & _).
  split; [exact Hsetup|]. split; [exact Hck|].
  exists m0, m, a. repeat split; assumption.
Defined.

(** * More of [train_unet] *)

Section More.

Local Open Scope list_scope.

Context {Exn Array SegNet Model Optimizer History : Type}.
Context (fw : @Framework Exn Array SegNet Model Optimizer History).

Local Abbreviation world' := (@World Exn Array SegNet Model Optimizer).
Local Abbreviation event' := (@Event Exn Array SegNet Model Optimizer).
Local Abbreviation pycall' := (@Call Exn Array SegNet Model Optimizer).

Ltac oracle_case :=
  match goal with
  | |- context [match ?r with Ok _ => _ | Raise _ => _ end] =>
      let E := fresh "E" in destruct r eqn:E
  end.

Ltac all_events :=
  repeat (first [apply List.Forall_nil | apply List.Forall_cons]; cbn; auto).

Ltac initial_segment := eexists; reflexivity.

(** ** Streams after an exception *)

Lemma zip_of_ended (xs ys : nat -> result Exn Array) (k : nat) :
  (forall i j, zip_of xs ys k <> PYield i j) ->
  zip_of xs ys (S k) = PStop.
Proof.
  revert xs ys. induction k as [|k IH]; intros xs ys H.
  - cbn [zip_of] in *. destruct (xs 0); [destruct (ys 0)|]; try reflexivity.
    exfalso. eapply H. reflexivity.
  - change (zip_of xs ys (S (S k))) with
      (match xs 0 with
       | Raise e => PStop
       | Ok i =>
           match ys 0 with
           | Raise e => PStop
           | Ok j => zip_of (fun n => xs (S n)) (fun n => ys (S n)) (S k)
           end
       end).
    cbn [zip_of] in H. destruct (xs 0); [destruct (ys 0)|]; try reflexivity.
    apply IH. exact H.
Qed.

(** ** The order of the calls in the debugging loop *)

Local Abbreviation kinds_of evs := (map kind_of (map ev_call evs)).

Lemma show_pair_order (i j : Array) (w : world') :
  iterators (snd (show_pair fw i j w)) = iterators w /\
  generators (snd (show_pair fw i j w)) = generators w /\
  exists evs : list event',
    log (snd (show_pair fw i j w)) = log w ++ evs /\
    kinds_of evs `prefix_of` show_pair_script /\
    (forall u, fst (show_pair fw i j w) = Returned u ->
       kinds_of evs = show_pair_script) /\
    fst (show_pair fw i j w) <> OutOfFuel /\
    fst (show_pair fw i j w) <> Stuck.
Proof.
  unfold show_pair, plt_figure, plt_imshow, plt_show, getitem, bind, call.
  repeat (cbn -[stream_of]; try oracle_case).
  all: split; [reflexivity|]; split; [reflexivity|].
  all: eexists; split; [rewrite <- ?app_assoc; reflexivity|].
  all: split; [initial_segment|].
  all: split; [intros u Hu; try discriminate Hu; reflexivity|].
  all: split; discriminate.
Qed.

Lemma for_each_order (fuel : nat) :
  forall (w : world') (ia ib : DirectoryIterator),
  generators w !! 0 = Some {| zip_fst := 0; zip_snd := 1; finished := false |} ->
  iterators w !! 0 = Some ia ->
  iterators w !! 1 = Some ib ->
  exists evs : list event',
    log (snd (for_each fw fuel 0 (show_pair fw) w)) = log w ++ evs /\
    kinds_of evs `prefix_of` concat (replicate fuel show_iteration) /\
    (fst (for_each fw fuel 0 (show_pair fw) w) = OutOfFuel ->
     kinds_of evs = concat (replicate fuel show_iteration)).
Proof.
  induction fuel as [|fuel IH]; intros w ia ib Hg Ha Hb.
  { exists []. cbn. rewrite app_nil_r. repeat split. apply prefix_nil. }
  assert (Hlt : 0 < length (iterators w)) by (eapply lookup_lt_Some; eassumption).
  assert (Hltb : 1 < length (iterators w)) by (eapply lookup_lt_Some; eassumption).
  cbn [for_each].
  rewrite (pull_live fw 0 0 1 w ia ib ltac:(discriminate) Hg Ha Hb). cbn zeta.
  destruct (fw_directory_batch fw (it_datagen ia) (it_flow ia) (total_batches_seen ia))
    as [i|e].
  2:{ exists [{| ev_call := Call_next 0; ev_raised := Some e |}]. cbn.
      repeat split; try discriminate. initial_segment. }
  destruct (fw_directory_batch fw (it_datagen ib) (it_flow ib) (total_batches_seen ib))
    as [j|e].
  2:{ exists [{| ev_call := Call_next 0; ev_raised := None |};
              {| ev_call := Call_next 1; ev_raised := Some e |}]. cbn.
      rewrite <- app_assoc.
      repeat split; try discriminate. initial_segment. }
  match goal with |- context [show_pair fw i j ?w1] =>
    destruct (show_pair_order i j w1)
      as (Hi & Hgen & evs & Hlog & Hpre & Hfull & Hfuel & Hstuck);
    destruct (show_pair fw i j w1) as [o w2] end.
  cbn [fst snd log_event iterators generators log] in *.
  destruct o as [u|e| |]; cbn [fst snd] in *.
  - destruct (IH w2 (advance ia) (advance ib)) as (evs' & Hlog' & Hpre' & Hfull').
    + rewrite Hgen. exact Hg.
    + rewrite Hi. rewrite list_lookup_insert_ne by discriminate.
      apply list_lookup_insert_eq. exact Hlt.
    + rewrite Hi. apply list_lookup_insert_eq. rewrite length_insert. exact Hltb.
    + exists ([{| ev_call := Call_next 0; ev_raised := None |};
               {| ev_call := Call_next 1; ev_raised := None |}] ++ evs ++ evs').
      rewrite Hlog', Hlog, <- !app_assoc. split; [reflexivity|].
      rewrite !map_app, (Hfull u eq_refl).
      change (concat (replicate (S fuel) show_iteration))
        with (show_iteration ++ concat (replicate fuel show_iteration)).
      change (map kind_of (map ev_call
                [{| ev_call := Call_next 0; ev_raised := None |};
                 {| ev_call := Call_next 1; ev_raised := None |}]) ++
              show_pair_script ++ kinds_of evs')
        with (show_iteration ++ kinds_of evs').
      split.
      * apply prefix_app. exact Hpre'.
      * intros Hout. rewrite (Hfull' Hout). reflexivity.
  - exists ([{| ev_call := Call_next 0; ev_raised := None |};
             {| ev_call := Call_next 1; ev_raised := None |}] ++ evs).
    rewrite Hlog, <- !app_assoc. split; [reflexivity|].
    split; [|discriminate].
    rewrite !map_app.
    change (concat (replicate (S fuel) show_iteration))
      with (([K_next 0; K_next 1] ++ show_pair_script) ++
            concat (replicate fuel show_iteration)).
    apply prefix_app_r. apply prefix_app. exact Hpre.
  - exfalso. apply Hfuel. reflexivity.
  - exfalso. apply Hstuck. reflexivity.
Qed.

(** ** What the debugging loop displays *)

Lemma show_pair_displayed (item : Array -> Index -> Array) (i j : Array) (w : world') :
  (forall a idx, fw_getitem fw a idx = Ok (item a idx)) ->
  (forall n, fw_plt_figure fw n = Ok tt) ->
  (forall a, fw_plt_imshow fw a = Ok tt) ->
  fw_plt_show fw = Ok tt ->
  exists evs : list event',
    show_pair fw i j w =
      (Returned tt,
       {| iterators := iterators w; generators := generators w;
          log := log w ++ evs |}) /\
    displayed evs = [item i Idx_0_ellipsis; item j Idx_0_ellipsis_0].
Proof.
  intros Hget Hfig Himshow Hshow.
  unfold show_pair, plt_figure, plt_imshow, plt_show, getitem, bind, call.
  rewrite !Hfig, !Hget, !Himshow, Hshow. unfold log_event. cbn.
  eexists. split; [rewrite <- !app_assoc; reflexivity | reflexivity].
Qed.

Lemma for_each_displayed (images masks : nat -> Array)
    (item : Array -> Index -> Array) (fuel : nat) :
  (forall a idx, fw_getitem fw a idx = Ok (item a idx)) ->
  (forall n, fw_plt_figure fw n = Ok tt) ->
  (forall a, fw_plt_imshow fw a = Ok tt) ->
  fw_plt_show fw = Ok tt ->
  forall (w : world') (ia ib : DirectoryIterator) (c : nat),
  generators w !! 0 = Some {| zip_fst := 0; zip_snd := 1; finished := false |} ->
  iterators w !! 0 = Some ia ->
  iterators w !! 1 = Some ib ->
  total_batches_seen ia = c ->
  total_batches_seen ib = c ->
  (forall n, fw_directory_batch fw (it_datagen ia) (it_flow ia) n = Ok (images n)) ->
  (forall n, fw_directory_batch fw (it_datagen ib) (it_flow ib) n = Ok (masks n)) ->
  exists evs : list event',
    log (snd (for_each fw fuel 0 (show_pair fw) w)) = log w ++ evs /\
    displayed evs =
    flat_map (fun k => [item (images k) Idx_0_ellipsis; item (masks k) Idx_0_ellipsis_0])
      (seq c fuel).
Proof.
  intros Hget Hfig Himshow Hshow.
  induction fuel as [|fuel IH]; intros w ia ib c Hg Ha Hb Hca Hcb Hi Hm.
  { exists []. cbn. rewrite app_nil_r. split; reflexivity. }
  assert (Hlt : 0 < length (iterators w)) by (eapply lookup_lt_Some; eassumption).
  assert (Hltb : 1 < length (iterators w)) by (eapply lookup_lt_Some; eassumption).
  cbn [for_each].
  rewrite (pull_live fw 0 0 1 w ia ib ltac:(discriminate) Hg Ha Hb). cbn zeta.
  rewrite Hi, Hm, Hca, Hcb.
  match goal with |- context [show_pair fw ?i ?j ?w1] =>
    destruct (show_pair_displayed item i j w1 Hget Hfig Himshow Hshow)
      as (evs & -> & Hevs) end.
  cbn [log_event iterators generators log].
  match goal with |- context [for_each fw fuel 0 (show_pair fw) ?w2] =>
    destruct (IH w2 (advance ia) (advance ib) (S c)) as (evs' & Hlog' & Hevs') end.
  - exact Hg.
  - cbn [iterators]. rewrite list_lookup_insert_ne by discriminate.
    apply list_lookup_insert_eq. exact Hlt.
  - cbn [iterators]. apply list_lookup_insert_eq. rewrite length_insert. exact Hltb.
  - cbn [advance total_batches_seen]. rewrite Hca. reflexivity.
  - cbn [advance total_batches_seen]. rewrite Hcb. reflexivity.
  - exact Hi.
  - exact Hm.
  - exists ([{| ev_call := Call_next 0; ev_raised := None |};
             {| ev_call := Call_next 1; ev_raised := None |}] ++ evs ++ evs').
    rewrite Hlog'. cbn [log]. rewrite <- !app_assoc. split; [reflexivity|].
    unfold displayed in *. rewrite !omap_app, Hevs, Hevs'. reflexivity.
Qed.

(** ** Two generators over different iterators *)

Lemma drawn_finished (g : nat) (G : Generator) (n : nat) (w : world') :
  generators w !! g = Some G -> finished G = true -> drawn fw g n w = w.
Proof.
  intros H1 H2. induction n as [|n IH]; [reflexivity|].
  cbn [drawn]. rewrite (pull_finished fw g G w H1 H2). exact IH.
Qed.

(** Asking one generator for pairs leaves alone the iterators and the
    generator object of another one that draws from different iterators. *)
Lemma drawn_elsewhere (g g' a b c d : nat) (n : nat) :
  g <> g' -> c <> d -> a <> c -> a <> d -> b <> c -> b <> d ->
  forall (w : world') (G : Generator) (ia ib ic id : DirectoryIterator),
  generators w !! g = Some G ->
  generators w !! g' = Some {| zip_fst := c; zip_snd := d; finished := false |} ->
  iterators w !! a = Some ia ->
  iterators w !! b = Some ib ->
  iterators w !! c = Some ic ->
  iterators w !! d = Some id ->
  generators (drawn fw g' n w) !! g = Some G /\
  iterators (drawn fw g' n w) !! a = Some ia /\
  iterators (drawn fw g' n w) !! b = Some ib.
Proof.
  intros Hgg Hcd Hac Had Hbc Hbd.
  induction n as [|n IH]; intros w G ia ib ic id Hg Hg' Ha Hb Hc Hd; [auto|].
  assert (Hlc : c < length (iterators w)) by (eapply lookup_lt_Some; eassumption).
  assert (Hld : d < length (iterators w)) by (eapply lookup_lt_Some; eassumption).
  cbn [drawn]. rewrite (pull_live fw g' c d w ic id Hcd Hg' Hc Hd). cbn zeta.
  destruct (fw_directory_batch fw (it_datagen ic) (it_flow ic) (total_batches_seen ic));
    [destruct (fw_directory_batch fw (it_datagen id) (it_flow id) (total_batches_seen id))|].
  - (* a pair was yielded: the generator is still live *)
    cbn [snd].
    apply (IH _ G ia ib (advance ic) (advance id)); cbn [log_event generators iterators].
    + exact Hg.
    + exact Hg'.
    + rewrite !list_lookup_insert_ne by congruence. exact Ha.
    + rewrite !list_lookup_insert_ne by congruence. exact Hb.
    + rewrite list_lookup_insert_ne by congruence. apply list_lookup_insert_eq. exact Hlc.
    + apply list_lookup_insert_eq. rewrite length_insert. exact Hld.
  - (* the generator finished: further requests change nothing *)
    cbn [snd].
    erewrite drawn_finished;
      [| apply finish_lookup; cbn [log_event generators]; exact Hg' | reflexivity].
    cbn [finish log_event generators iterators].
    rewrite list_lookup_alter_ne by congruence.
    rewrite !list_lookup_insert_ne by congruence. auto.
  - cbn [snd].
    erewrite drawn_finished;
      [| apply finish_lookup; cbn [log_event generators]; exact Hg' | reflexivity].
    cbn [finish log_event generators iterators].
    rewrite list_lookup_alter_ne by congruence.
    rewrite !list_lookup_insert_ne by congruence. auto.
Qed.

Section Run.

Variables (segmodel : @SegModel SegNet) (img_path mask_path : string)
  (batch_size epochs steps_per_epoch : option Z) (val_split : option float)
  (optimizer : Optimizer) (monitor model_file : option string) (seed : option Z).

Local Abbreviation run show fuel :=
  (train_unet fw segmodel img_path mask_path batch_size epochs steps_per_epoch
     val_split optimizer monitor model_file seed show fuel empty_world).

Local Abbreviation datagen_here := (expected_datagen val_split).
Local Abbreviation flow_here := (expected_flow batch_size seed).

(** The runs with [show] false, call by call. *)
Lemma run_without_show_order (fuel : nat) :
  kinds (snd (run false fuel)) `prefix_of` training_script /\
  fst (run false fuel) <> OutOfFuel /\
  (forall h, fst (run false fuel) = Returned h ->
     kinds (snd (run false fuel)) = training_script) /\
  Forall
    (fun c =>
       match c with
       | Call_collect s =>
           seg_net s = seg_net segmodel /\
           exists b b0,
             fw_directory_batch fw datagen_here
               (flow_here img_path "rgb" "training") 0 = Ok b /\
             fw_getitem fw b Idx_0 = Ok b0 /\
             input_size s = Some (fw_shape fw b0)
       | _ => True
       end)
    (calls (snd (run false fuel))).
Proof.
  unfold kinds, calls.
  unfold train_unet, ImageDataGenerator, flow_from_directory, new_iterator,
    zip_generator, import_pyplot, getitem, collect, ModelCheckpoint, compile,
    fit_generator, next, ret, bind, call.
  repeat (cbn -[stream_of]; try oracle_case).
  all: split; [initial_segment|].
  all: split; [discriminate|].
  all: split; [intros h Hh; try discriminate Hh; reflexivity|].
  all: all_events; eauto 10.
Qed.

Local Abbreviation conforms_here :=
  (conforms fw img_path mask_path batch_size epochs steps_per_epoch val_split
     optimizer monitor model_file seed).

(** X1. With [show] false the library calls of a run are an initial segment
    of the twelve calls of [training_script], in that order; the run needs
    no fuel (it makes no loop of its own); and a run that returns made all
    twelve. *)
Theorem calls_in_order_without_show (fuel : nat) :
  kinds (snd (run false fuel)) `prefix_of` training_script /\
  fst (run false fuel) <> OutOfFuel /\
  (forall h, fst (run false fuel) = Returned h ->
     kinds (snd (run false fuel)) = training_script).
Proof.
  destruct (run_without_show_order fuel) as (H1 & H2 & H3 & _).
  split; [exact H1|]. split; [exact H2 | exact H3].
Qed.

(** X2. With [show] false, matplotlib is neither imported nor called. *)
Theorem no_matplotlib_without_show (fuel : nat) :
  Forall
    (fun c =>
       match c with
       | Call_import_pyplot | Call_plt_figure _ | Call_plt_imshow _
       | Call_plt_show => False
       | _ => True
       end)
    (calls (snd (run false fuel))).
Proof.
  destruct (run_without_show_order fuel) as ([rest Hrest] & _).
  apply List.Forall_forall. intros c Hc.
  assert (Hk : In (kind_of c) training_script).
  { rewrite Hrest. apply in_or_app. left. unfold kinds. apply in_map. exact Hc. }
  destruct c; try exact I; cbn in Hk; intuition discriminate.
Qed.

(** X3. The [segmodel] that [collect()] is called on has the caller's
    network and, as [input_size], the shape of the first item of the first
    batch of the training image iterator; whatever [input_size] the caller
    had set is overwritten, so the run does not depend on it. *)
Theorem input_size_read_from_first_image_batch (show : bool) (fuel : nat) :
  Forall
    (fun c =>
       match c with
       | Call_collect s =>
           seg_net s = seg_net segmodel /\
           exists b b0,
             fw_directory_batch fw datagen_here
               (flow_here img_path "rgb" "training") 0 = Ok b /\
             fw_getitem fw b Idx_0 = Ok b0 /\
             input_size s = Some (fw_shape fw b0)
       | _ => True
       end)
    (calls (snd (run show fuel))) /\
  (forall previous : option (list Z),
     train_unet fw {| seg_net := seg_net segmodel; input_size := previous |}
       img_path mask_path batch_size epochs steps_per_epoch val_split optimizer
       monitor model_file seed show fuel empty_world =
     run show fuel).
Proof.
  split.
  - destruct show.
    + destruct (run_with_show fw segmodel img_path mask_path batch_size epochs
                  steps_per_epoch val_split optimizer monitor model_file seed fuel)
        as (_ & _ & Ht & _).
      eapply Forall_impl; [exact Ht|]. intros c Hc. destruct c; try exact I.
      exfalso. apply Hc. exact I.
    + destruct (run_without_show_order fuel) as (_ & _ & _ & H). exact H.
  - intros previous. destruct segmodel as [net size]. reflexivity.
Qed.

(** X4. Both data generators rescale by 1/255 into [tf.float32]; every
    directory iterator is built by such a generator, without class labels
    ([class_mode=None]), reading [img_path] as "rgb" or [mask_path] as
    "grayscale". *)
Theorem masks_grayscale_images_rgb (show : bool) (fuel : nat) :
  Forall
    (fun c =>
       match c with
       | Call_ImageDataGenerator a =>
           DataGen.rescale a = (1 / 255)%float /\
           DataGen.dtype a = tf "" "float32"
       | Call_flow_from_directory datagen a =>
           DataGen.rescale datagen = (1 / 255)%float /\
           DataGen.dtype datagen = tf "" "float32" /\
           Flow.class_mode a = None /\
           ((Flow.directory a = img_path /\ Flow.color_mode a = "rgb"%string) \/
            (Flow.directory a = mask_path /\ Flow.color_mode a = "grayscale"%string))
       | _ => True
       end)
    (calls (snd (run show fuel))).
Proof.
  destruct (run_any fw segmodel img_path mask_path batch_size epochs steps_per_epoch
              val_split optimizer monitor model_file seed show fuel) as (_ & Hc & _).
  eapply Forall_impl; [exact Hc|].
  intros c. destruct c; simpl; auto.
  - intros ->. split; reflexivity.
  - intros [-> Ha]. split; [reflexivity|]. split; [reflexivity|].
    destruct Ha as [-> | [-> | [-> | ->]]]; simpl; auto.
Qed.

(** X5. Where the training API is reached, the validation pairs are paired
    as drawn: the k-th pair of the validation stream holds the k-th batch of
    the validation image iterator and the k-th batch of the validation mask
    iterator. Stated for directory contents on which no validation batch
    raises. *)
Theorem validation_pairs_aligned (show : bool) (fuel : nat)
    (images masks : nat -> Array) m a :
  (forall n, fw_directory_batch fw datagen_here
               (flow_here img_path "rgb" "validation") n = Ok (images n)) ->
  (forall n, fw_directory_batch fw datagen_here
               (flow_here mask_path "grayscale" "validation") n = Ok (masks n)) ->
  In (Call_fit_generator m a) (calls (snd (run show fuel))) ->
  forall k, Fit.validation_data a k = PYield (images k) (masks k).
Proof.
  intros Hi Hm Hin k.
  destruct (fit_conforms fw segmodel img_path mask_path batch_size epochs
              steps_per_epoch val_split optimizer monitor model_file seed
              show fuel m a Hin) as (_ & _ & _ & _ & _ & _ & Hv).
  rewrite Hv. unfold expected_stream.
  apply (zip_of_yield _ _ images masks); intros n; unfold produced_from.
  - apply Hi.
  - apply Hm.
Qed.

(** X6. Where the training API is reached, each of the two streams handed
    to it ends at its first exception: once a request for a pair gives
    anything but a pair (the exception of a batch that cannot be loaded),
    the next request finds the generator finished. *)
Theorem streams_end_at_first_exception (show : bool) (fuel : nat) m a :
  In (Call_fit_generator m a) (calls (snd (run show fuel))) ->
  forall k,
    ((forall i j, Fit.generator a k <> PYield i j) ->
     Fit.generator a (S k) = PStop) /\
    ((forall i j, Fit.validation_data a k <> PYield i j) ->
     Fit.validation_data a (S k) = PStop).
Proof.
  intros Hin k.
  destruct (fit_conforms fw segmodel img_path mask_path batch_size epochs
              steps_per_epoch val_split optimizer monitor model_file seed
              show fuel m a Hin) as (_ & _ & _ & _ & _ & Ht & Hv).
  split; intros H.
  - rewrite Ht. apply zip_of_ended. intros i j.
    specialize (H i j). rewrite Ht in H. exact H.
  - rewrite Hv. apply zip_of_ended. intros i j.
    specialize (H i j). rewrite Hv in H. exact H.
Qed.

(** X7. With [show] true the library calls of a run are an initial segment
    of the pipeline calls, the import of matplotlib, and then iteration
    after iteration of the loop, each one drawing one batch from the image
    iterator and one from the mask iterator before it displays them; a run
    that is still in the loop after [fuel] iterations has made exactly the
    calls of [show_script fuel]. *)
Theorem calls_in_order_with_show (fuel : nat) :
  kinds (snd (run true fuel)) `prefix_of` show_script fuel /\
  (fst (run true fuel) = OutOfFuel ->
   kinds (snd (run true fuel)) = show_script fuel).
Proof.
  unfold kinds, calls, show_script, train_unet, ImageDataGenerator,
    flow_from_directory, new_iterator, zip_generator, import_pyplot, ret, bind, call.
  repeat (cbn -[stream_of for_each plt_figure plt_imshow plt_show getitem next
                concat replicate];
          try oracle_case).
  all: try (split; [initial_segment | discriminate]).
  match goal with |- context [for_each fw fuel 0 ?b ?W] =>
    change b with (show_pair fw);
    destruct (for_each_order fuel W _ _ eq_refl eq_refl eq_refl)
      as (evs & Hlog & Hpre & Hfull);
    destruct (for_each_spec fw 0 0 1 fuel ltac:(discriminate) W _ _
                eq_refl eq_refl eq_refl) as (_ & _ & _ & _ & Hret & _);
    destruct (for_each fw fuel 0 (show_pair fw) W) as [o w']
  end.
  cbn [fst snd log] in Hlog, Hpre, Hfull, Hret.
  destruct o as [u|e| |]; [exfalso; apply (Hret u); reflexivity | ..].
  all: cbn [fst snd]; rewrite Hlog, !map_app; cbn [map ev_call kind_of app].
  all: split; [do 7 apply prefix_cons; exact Hpre|].
  - discriminate.
  - intros _. rewrite (Hfull eq_refl). reflexivity.
  - discriminate.
Qed.

(** X8. With [show] true and no call raising, the loop displays the pairs
    as drawn: after [fuel] iterations the arrays handed to [plt.imshow] are,
    for k = 0, 1, ..., the first image of image batch k followed by the
    first channel of the first mask of mask batch k, with the same k. *)
Theorem debugging_loop_shows_aligned_pairs (fuel : nat)
    (images masks : nat -> Array) (item : Array -> Index -> Array) :
  show_never_raises fw ->
  (forall a idx, fw_getitem fw a idx = Ok (item a idx)) ->
  (forall n, fw_directory_batch fw datagen_here
               (flow_here img_path "rgb" "training") n = Ok (images n)) ->
  (forall n, fw_directory_batch fw datagen_here
               (flow_here mask_path "grayscale" "training") n = Ok (masks n)) ->
  displayed (log (snd (run true fuel))) =
  flat_map (fun k => [item (images k) Idx_0_ellipsis; item (masks k) Idx_0_ellipsis_0])
    (seq 0 fuel).
Proof.
  intros Hq Hget Hi Hm.
  pose proof Hq as (HIDG & Hflow & _ & _ & Himport & Hfig & Himshow & Hshow).
  pose proof (for_each_quiet fw 0 0 1 fuel Hq ltac:(discriminate)) as Hout.
  unfold train_unet, ImageDataGenerator, flow_from_directory, new_iterator,
    zip_generator, import_pyplot, ret, bind, call.
  rewrite !HIDG, !Hflow, Himport.
  cbn -[stream_of for_each plt_figure plt_imshow plt_show getitem next].
  match goal with |- context [for_each fw fuel 0 ?b ?W] =>
    change b with (show_pair fw);
    destruct (for_each_displayed images masks item fuel Hget Hfig Himshow Hshow
                W _ _ 0 eq_refl eq_refl eq_refl eq_refl eq_refl Hi Hm)
      as (evs & Hlog & Hevs);
    specialize (Hout W _ _ eq_refl eq_refl eq_refl);
    destruct (for_each fw fuel 0 (show_pair fw) W) as [o w']
  end.
  cbn [fst snd log] in Hlog, Hout. subst o. cbn [fst snd].
  rewrite Hlog. unfold displayed in *. rewrite omap_app, Hevs. reflexivity.
Qed.

(** The store with which the training API is reached. *)
Lemma run_without_show_store (fuel : nat) m a :
  In (Call_fit_generator m a) (calls (snd (run false fuel))) ->
  generators (snd (run false fuel)) =
    [{| zip_fst := 0; zip_snd := 1; finished := false |};
     {| zip_fst := 2; zip_snd := 3; finished := false |}] /\
  map total_batches_seen (iterators (snd (run false fuel))) = [1; 0; 0; 0] /\
  length (iterators (snd (run false fuel))) = 4 /\
  (forall k, Fit.generator a k = stream_of fw (snd (run false fuel)) 0 k) /\
  (forall k, Fit.validation_data a k = stream_of fw (snd (run false fuel)) 1 k).
Proof.
  unfold calls.
  unfold train_unet, ImageDataGenerator, flow_from_directory, new_iterator,
    zip_generator, import_pyplot, getitem, collect, ModelCheckpoint, compile,
    fit_generator, next, ret, bind, call.
  repeat (cbn -[stream_of]; try oracle_case).
  all: intros Hin; repeat (destruct Hin as [Hin|Hin]; [try discriminate Hin|]);
       try contradiction.
  all: injection Hin as <- <-; cbn -[stream_of].
  all: split; [reflexivity|]; split; [reflexivity|]; split; [reflexivity|].
  all: split; intros k.
  all: etransitivity;
    [ first [ eapply (stream_of_zip fw 0 0 1); first [discriminate | reflexivity]
            | eapply (stream_of_zip fw 1 2 3); first [discriminate | reflexivity] ]
    | symmetry;
      first [ eapply (stream_of_zip fw 0 0 1); first [discriminate | reflexivity]
            | eapply (stream_of_zip fw 1 2 3); first [discriminate | reflexivity] ] ].
Qed.

(** X9. With [show] false, a call of [train_unet] in which no library call
    raises returns, whatever the fuel: it returns the history of
    [fit_generator]. *)
Theorem returns_when_nothing_raises (fuel : nat) :
  never_raises fw ->
  exists h m a,
    fst (run false fuel) = Returned h /\
    fw_fit_generator fw m a = Ok h /\
    last (calls (snd (run false fuel))) = Some (Call_fit_generator m a).
Proof.
  intros ((HIDG & Hflow & Hbatch & Hget & _) & Hcollect & Hckpt & Hcompile & Hfit).
  unfold calls.
  unfold train_unet, ImageDataGenerator, flow_from_directory, new_iterator,
    zip_generator, import_pyplot, getitem, collect, ModelCheckpoint, compile,
    fit_generator, next, ret, bind, call.
  repeat (cbn -[stream_of]; try oracle_case).
  all: try (exfalso;
            match goal with
            | E : fw_ImageDataGenerator _ _ = Raise _ |- _ =>
                rewrite HIDG in E; discriminate E
            | E : fw_flow_from_directory _ _ _ = Raise _ |- _ =>
                rewrite Hflow in E; discriminate E
            | E : fw_directory_batch _ ?d ?f ?k = Raise _ |- _ =>
                destruct (Hbatch d f k) as [? Hx]; rewrite Hx in E; discriminate E
            | E : fw_getitem _ ?x ?idx = Raise _ |- _ =>
                destruct (Hget x idx) as [? Hx]; rewrite Hx in E; discriminate E
            | E : fw_collect _ ?x = Raise _ |- _ =>
                destruct (Hcollect x) as [? Hx]; rewrite Hx in E; discriminate E
            | E : fw_ModelCheckpoint _ _ = Raise _ |- _ =>
                rewrite Hckpt in E; discriminate E
            | E : fw_compile _ ?x ?y = Raise _ |- _ =>
                destruct (Hcompile x y) as [? Hx]; rewrite Hx in E; discriminate E
            | E : fw_fit_generator _ ?x ?y = Raise _ |- _ =>
                destruct (Hfit x y) as [? Hx]; rewrite Hx in E; discriminate E
            end).
  do 3 eexists. split; [reflexivity|]. split; [eassumption | reflexivity].
Qed.

(** X10. The two streams handed to the training API do not interfere: in
    the store with which the API is reached, however many pairs have been
    requested from the validation generator, the training generator yields
    the same pairs, and the other way round. *)
Theorem streams_do_not_interfere (show : bool) (fuel : nat) m a (n k : nat) :
  In (Call_fit_generator m a) (calls (snd (run show fuel))) ->
  stream_of fw (drawn fw 1 n (snd (run show fuel))) 0 k = Fit.generator a k /\
  stream_of fw (drawn fw 0 n (snd (run show fuel))) 1 k = Fit.validation_data a k.
Proof.
  intros Hin. destruct show.
  { exfalso.
    destruct (run_with_show fw segmodel img_path mask_path batch_size epochs
                steps_per_epoch val_split optimizer monitor model_file seed fuel)
      as (_ & _ & Ht & _).
    rewrite List.Forall_forall in Ht. apply (Ht _ Hin). exact I. }
  destruct (run_without_show_store fuel m a Hin) as (Hg & _ & Hlen & Ht & Hv).
  rewrite Ht, Hv.
  set (w := snd (run false fuel)) in *.
  destruct (iterators w) as [|i0 [|i1 [|i2 [|i3 [|i4 its]]]]] eqn:Hits;
    try discriminate Hlen.
  assert (H0 : iterators w !! 0 = Some i0) by (rewrite Hits; reflexivity).
  assert (H1 : iterators w !! 1 = Some i1) by (rewrite Hits; reflexivity).
  assert (H2 : iterators w !! 2 = Some i2) by (rewrite Hits; reflexivity).
  assert (H3 : iterators w !! 3 = Some i3) by (rewrite Hits; reflexivity).
  assert (G0 : generators w !! 0 =
               Some {| zip_fst := 0; zip_snd := 1; finished := false |})
    by (rewrite Hg; reflexivity).
  assert (G1 : generators w !! 1 =
               Some {| zip_fst := 2; zip_snd := 3; finished := false |})
    by (rewrite Hg; reflexivity).
  split.
  - destruct (drawn_elsewhere 0 1 0 1 2 3 n ltac:(discriminate) ltac:(discriminate)
                ltac:(discriminate) ltac:(discriminate) ltac:(discriminate)
                ltac:(discriminate) w _ i0 i1 i2 i3 G0 G1 H0 H1 H2 H3)
      as (G0' & H0' & H1').
    rewrite (stream_of_zip fw 0 0 1 k ltac:(discriminate) _ i0 i1 G0' H0' H1').
    rewrite (stream_of_zip fw 0 0 1 k ltac:(discriminate) _ i0 i1 G0 H0 H1).
    reflexivity.
  - destruct (drawn_elsewhere 1 0 2 3 0 1 n ltac:(discriminate) ltac:(discriminate)
                ltac:(discriminate) ltac:(discriminate) ltac:(discriminate)
                ltac:(discriminate) w _ i2 i3 i0 i1 G1 G0 H2 H3 H0 H1)
      as (G1' & H2' & H3').
    rewrite (stream_of_zip fw 1 2 3 k ltac:(discriminate) _ i2 i3 G1' H2' H3').
    rewrite (stream_of_zip fw 1 2 3 k ltac:(discriminate) _ i2 i3 G1 H2 H3).
    reflexivity.
Qed.

End Run.

End More.

(** ** The further properties on the demo environments *)

Local Open Scope list_scope.

(** X5 on the demo call. *)
Lemma validation_pairs_aligned_demo :
  exists m a,
    In (Call_fit_generator m a) (calls (snd (demo_call None false 0))) /\
    Fit.validation_data a 1 =
    PYield (Batch "images" "validation" 1) (Batch "masks" "validation" 1).
Proof.
  destruct demo_reaches_fit as (m & a & Hin). exists m, a. split; [exact Hin|].
  apply (validation_pairs_aligned (demo_fw None) demo_segmodel "images" "masks"
           (Some 16%Z) (Some 25%Z) (Some 3125%Z) (Some 0x1.999999999999ap-3%float)
           "Adam"%string (Some "val_jaccard_index"%string) (Some "unet.h5"%string)
           (Some 1%Z) false 0
           (fun n => Batch "images" "validation" n)
           (fun n => Batch "masks" "validation" n) m a).
  - intros n. reflexivity.
  - intros n. reflexivity.
  - exact Hin.
Defined.

(** The demo call over a mask directory with a corrupt third batch reaches
    the training API. *)
Lemma demo_corrupt_reaches_fit :
  exists m a,
    In (Call_fit_generator m a)
       (calls (snd (train_unet (demo_fw_corrupt 2) demo_segmodel "images" "masks"
                      (Some 16%Z) (Some 25%Z) (Some 3125%Z)
                      (Some 0x1.999999999999ap-3%float) "Adam"%string
                      (Some "val_jaccard_index"%string) (Some "unet.h5"%string)
                      (Some 1%Z) false 0 empty_world))) /\
    Fit.generator a 2 = PRaise "UnidentifiedImageError"%string.
Proof.
  do 2 eexists. cbn -[stream_of]. split.
  - do 11 right. left. reflexivity.
  - vm_compute. reflexivity.
Qed.

(** X6 on that call: the third request raises, the fourth finds the
    training stream finished. *)
Lemma streams_end_at_first_exception_demo :
  exists m a,
    In (Call_fit_generator m a)
       (calls (snd (train_unet (demo_fw_corrupt 2) demo_segmodel "images" "masks"
                      (Some 16%Z) (Some 25%Z) (Some 3125%Z)
                      (Some 0x1.999999999999ap-3%float) "Adam"%string
                      (Some "val_jaccard_index"%string) (Some "unet.h5"%string)
                      (Some 1%Z) false 0 empty_world))) /\
    Fit.generator a 2 = PRaise "UnidentifiedImageError"%string /\
    Fit.generator a 3 = PStop.
Proof.
  destruct demo_corrupt_reaches_fit as (m & a & Hin & H2). exists m, a.
  split; [exact Hin|]. split; [exact H2|].
  apply (streams_end_at_first_exception (demo_fw_corrupt 2) demo_segmodel
           "images" "masks" (Some 16%Z) (Some 25%Z) (Some 3125%Z)
           (Some 0x1.999999999999ap-3%float) "Adam"%string
           (Some "val_jaccard_index"%string) (Some "unet.h5"%string) (Some 1%Z)
           false 0 m a Hin 2).
  intros i j. rewrite H2. discriminate.
Defined.

(** X8 on the demo call with [show=True], after two iterations. *)
Lemma debugging_loop_shows_aligned_pairs_demo :
  displayed (log (snd (demo_call None true 2))) =
  [Item (Batch "images" "training" 0) Idx_0_ellipsis;
   Item (Batch "masks" "training" 0) Idx_0_ellipsis_0;
   Item (Batch "images" "training" 1) Idx_0_ellipsis;
   Item (Batch "masks" "training" 1) Idx_0_ellipsis_0].
Proof.
  apply (debugging_loop_shows_aligned_pairs (demo_fw None) demo_segmodel
           "images" "masks" (Some 16%Z) (Some 25%Z) (Some 3125%Z)
           (Some 0x1.999999999999ap-3%float) "Adam"%string
           (Some "val_jaccard_index"%string) (Some "unet.h5"%string) (Some 1%Z)
           2 (fun n => Batch "images" "training" n) (fun n => Batch "masks" "training" n)
           Item).
  - unfold show_never_raises. cbn. repeat split; eauto.
  - intros a idx. reflexivity.
  - intros n. reflexivity.
  - intros n. reflexivity.
Defined.

(** X9 on the demo call. *)
Lemma returns_when_nothing_raises_demo :
  exists h m a,
    fst (demo_call None false 0) = Returned h /\
    fw_fit_generator (demo_fw None) m a = Ok h /\
    last (calls (snd (demo_call None false 0))) = Some (Call_fit_generator m a).
Proof.
  apply (returns_when_nothing_raises (demo_fw None) demo_segmodel "images" "masks"
           (Some 16%Z) (Some 25%Z) (Some 3125%Z) (Some 0x1.999999999999ap-3%float)
           "Adam"%string (Some "val_jaccard_index"%string) (Some "unet.h5"%string)
           (Some 1%Z) 0).
  unfold never_raises, show_never_raises. cbn. repeat split; eauto.
Defined.

(** X10 on the demo call: after three validation pairs have been requested,
    the training generator still begins with the pair it was handed over
    with. *)
Lemma streams_do_not_interfere_demo :
  exists m a,
    In (Call_fit_generator m a) (calls (snd (demo_call None false 0))) /\
    stream_of (demo_fw None) (drawn (demo_fw None) 1 3 (snd (demo_call None false 0))) 0 0 =
    Fit.generator a 0 /\
    Fit.generator a 0 =
    PYield (Batch "images" "training" 1) (Batch "masks" "training" 0).
Proof.
  destruct demo_reaches_fit as (m & a & Hin). exists m, a. split; [exact Hin|].
  split.
  - apply (streams_do_not_interfere (demo_fw None) demo_segmodel "images" "masks"
             (Some 16%Z) (Some 25%Z) (Some 3125%Z) (Some 0x1.999999999999ap-3%float)
             "Adam"%string (Some "val_jaccard_index"%string) (Some "unet.h5"%string)
             (Some 1%Z) false 0 m a 3 0 Hin).
  - destruct (fit_conforms (demo_fw None) demo_segmodel "images" "masks"
                (Some 16%Z) (Some 25%Z) (Some 3125%Z)
                (Some 0x1.999999999999ap-3%float) "Adam"%string
                (Some "val_jaccard_index"%string) (Some "unet.h5"%string) (Some 1%Z)
                false 0 m a Hin) as (_ & _ & _ & _ & _ & Ht & _).
    rewrite Ht. reflexivity.
Defined.
